(** * debug.py: the Frida diagnostic harness, embedded in Rocq

    The source is one Python file, [debug.py].  It has a message sink
    ([_on_message]), the diagnostic routine ([run_diag]) and, inside
    [run_diag], a JavaScript wrapper that is built as text and injected into
    the target process.

    - Part I models the Python side: values, exceptions, a completion monad
      with [return] and [try]/[except], the instrumentation runtime as a
      record of outcomes, and the two functions.
    - Part II models the JavaScript wrapper: the values it inspects, a
      throw/catch monad over the message channel, and the wrapper itself,
      first for a body that leaves the wrapper's names alone ([JS]), then
      for any body ([Scoped]).  In between stand the [__main__] block and a
      few more readings of traces and messages.
    - Part III holds the theorems.

    Every exception of the model is an instance of Python's [Exception];
    asynchronous interruptions ([KeyboardInterrupt], [SystemExit]) are not
    modelled. *)

From Stdlib Require Import String Ascii List ZArith Bool Lia.
From Stdlib Require Import Floats.SpecFloat.
From Stdlib Require Import DecimalString.
Import ListNotations.
Local Open Scope string_scope.
Set Warnings "-register-all".

(** ** Characters that a Rocq string literal cannot hold directly *)

Definition nl : string := String (ascii_of_nat 10) EmptyString.
Definition dq : string := String (ascii_of_nat 34) EmptyString.
Definition quoted (s : string) : string := dq ++ s ++ dq.

(* ===================================================================== *)
(** * Part I.  The Python side *)
(* ===================================================================== *)

Module Py.

(** ** Values

    A message handed to the sink is what the runtime decoded from JSON, but
    the sink is a plain function and can be called with any value. *)

Inductive pyval : Type :=
| PNone
| PBool (b : bool)
| PInt (n : Z)
| PFloat (f : spec_float)
| PStr (s : string)
| PList (xs : list pyval)
| PDict (kvs : list (string * pyval)).

Definition float_is_zero (f : spec_float) : bool :=
  match f with S754_zero _ => true | _ => false end.

(** [bool(v)] *)
Definition truthy (v : pyval) : bool :=
  match v with
  | PNone => false
  | PBool b => b
  | PInt n => negb (Z.eqb n 0)
  | PFloat f => negb (float_is_zero f)
  | PStr s => negb (String.eqb s "")
  | PList xs => match xs with [] => false | _ => true end
  | PDict kvs => match kvs with [] => false | _ => true end
  end.

(** [a or b] *)
Definition py_or (a b : pyval) : pyval := if truthy a then a else b.

(** [v == "s"] for a string literal on the right *)
Definition eq_str (v : pyval) (s : string) : bool :=
  match v with PStr t => String.eqb t s | _ => false end.

(** [type(v).__name__] *)
Definition type_name (v : pyval) : string :=
  match v with
  | PNone => "NoneType"
  | PBool _ => "bool"
  | PInt _ => "int"
  | PFloat _ => "float"
  | PStr _ => "str"
  | PList _ => "list"
  | PDict _ => "dict"
  end.

Fixpoint assoc (key : string) (kvs : list (string * pyval)) : option pyval :=
  match kvs with
  | [] => None
  | (k, v) :: rest => if String.eqb k key then Some v else assoc key rest
  end.

(** ** Exceptions *)

Inductive exn_class : Type :=
| ProcessNotFoundError
| AttributeError
| TypeError
| ValueError
| OverflowError
| OtherException (name : string).

Record exn : Type := mk_exn { exn_cls : exn_class; exn_text : string }.

(** [str(e)] *)
Definition str_exn (e : exn) : string := exn_text e.

Definition is_ProcessNotFoundError (e : exn) : bool :=
  match exn_cls e with ProcessNotFoundError => true | _ => false end.

(** [isinstance(e, Exception)]: every modelled exception is one. *)
Definition is_Exception (e : exn) : bool := true.

(** ** Log lines

    An f-string is kept as its template: the literal text and the values
    formatted into it.  [render] gives the final text for any formatter of
    values. *)

Inductive piece : Type :=
| Lit (s : string)        (* literal text of the template *)
| FStr (s : string)       (* {x} for a str x, and {e} through str(e) *)
| FVal (v : pyval).       (* {x} for any other value: format(x, "") *)

Definition render_piece (fmt : pyval -> string) (p : piece) : string :=
  match p with
  | Lit s => s
  | FStr s => s
  | FVal v => fmt v
  end.

Fixpoint render (fmt : pyval -> string) (ps : list piece) : string :=
  match ps with
  | [] => ""
  | p :: rest => render_piece fmt p ++ render fmt rest
  end.

Inductive level : Type := INFO | ERROR.

(** ** Handles of the instrumentation runtime *)

Record session : Type := Session { session_id : nat }.
Record script : Type := Script { script_id : nat }.

(** ** Events: every call that leaves the program, and every log line *)

Inductive event : Type :=
| EvExists (path : string)
| EvAttach (process_name : string)
| EvOpen (path : string)
| EvRead
| EvClose
| EvNow
| EvCreateScript (s : session) (source : string)
| EvOn (sc : script)
| EvLoad (sc : script)
| EvExportsSync (sc : script)
| EvGetattr (sc : script) (name : string)
| EvSleep (secs : spec_float)
| EvDetach (s : session)
| EvLog (lvl : level) (msg : list piece).

Definition trace : Type := list event.

(** ** Completions of a block of statements *)

Inductive completion (A : Type) : Type :=
| Normal (a : A)        (* fell through, with a value *)
| Return_ (code : Z)    (* a [return] statement was executed *)
| Raise (e : exn).      (* an exception is propagating *)

Arguments Normal {A} a.
Arguments Return_ {A} code.
Arguments Raise {A} e.

Definition M (A : Type) : Type := trace * completion A.

Definition ret {A} (a : A) : M A := ([], Normal a).
Definition pass : M unit := ret tt.
Definition return_ {A} (code : Z) : M A := ([], Return_ code).
Definition raise {A} (e : exn) : M A := ([], Raise e).
Definition emit (ev : event) : M unit := ([ev], Normal tt).

Definition bind {A B} (m : M A) (k : A -> M B) : M B :=
  match m with
  | (t, Normal a) => let (t', c) := k a in ((t ++ t')%list, c)
  | (t, Return_ code) => (t, Return_ code)
  | (t, Raise e) => (t, Raise e)
  end.

Declare Scope py_scope.
Delimit Scope py_scope with py.
Notation "x <- m ;; k" := (bind m (fun x => k))
  (at level 61, m at next level, right associativity) : py_scope.
Notation "m ;; k" := (bind m (fun _ => k))
  (at level 61, right associativity) : py_scope.
Local Open Scope py_scope.

(** [try: m  except C1: h1  except C2 as e: h2 ...]: the first clause whose
    class matches handles the exception; with none, it keeps propagating. *)

Definition clause (A : Type) : Type := (exn -> bool) * (exn -> M A).
Definition except_ {A} (matches : exn -> bool) (h : exn -> M A) : clause A :=
  (matches, h).

Fixpoint handle {A} (e : exn) (cs : list (clause A)) : M A :=
  match cs with
  | [] => raise e
  | (matches, h) :: rest => if matches e then h e else handle e rest
  end.

Definition try_ {A} (m : M A) (cs : list (clause A)) : M A :=
  match m with
  | (t, Raise e) => let (t', c) := handle e cs in ((t ++ t')%list, c)
  | _ => m
  end.

(** ** Calls that return or raise *)

Inductive outcome (A : Type) : Type :=
| Ok (a : A)
| Err (e : exn).

Arguments Ok {A} a.
Arguments Err {A} e.

Definition of_outcome {A} (o : outcome A) : M A :=
  match o with
  | Ok a => ret a
  | Err e => raise e
  end.

(** [format(v, "")], which an f-string applies to a value it embeds: the
    text of [str(v)], or the exception that [str] raises (an int with more
    digits than the interpreter's limit, a nesting too deep to print). *)
Definition formatter : Type := pyval -> outcome string.

(** ** The logging module: a log call appends a line and does not raise *)

Definition logging_info (msg : list piece) : M unit := emit (EvLog INFO msg).
Definition logging_error (msg : list piece) : M unit := emit (EvLog ERROR msg).

(** ** Operations of the sink *)

(** [d.get(key)]: the value under the key, or [None]; only a dict has the
    method. *)
Definition dict_get (key : string) (kvs : list (string * pyval)) : pyval :=
  match assoc key kvs with Some v => v | None => PNone end.

Definition get (d : pyval) (key : string) : M pyval :=
  match d with
  | PDict kvs => ret (dict_get key kvs)
  | _ => raise (mk_exn AttributeError
                  ("'" ++ type_name d ++ "' object has no attribute 'get'"))
  end.

(** ["s" + v]: string concatenation needs a str on the right. *)
Definition str_add (s : string) (v : pyval) : M string :=
  match v with
  | PStr t => ret (s ++ t)
  | _ => raise (mk_exn TypeError
                  ("can only concatenate str (not " ++ quoted (type_name v)
                   ++ ") to str"))
  end.

(** ** [_on_message], lines 12-31 *)

(** Lines 17-29: the body of the [try].  An f-string is evaluated, and so
    its value formatted, before the log call it is the argument of. *)
Definition interpret (fmt : formatter) (message : pyval) : M unit :=
  mtype <- get message "type" ;;
  if eq_str mtype "send" then
    payload <- get message "payload" ;;
    text <- of_outcome (fmt payload) ;;
    logging_info [Lit "[JS send] "; FStr text]
  else if eq_str mtype "error" then
    desc <- get message "description" ;;
    stack <- get message "stack" ;;
    line <- str_add "[JS error] " (py_or desc (PStr "")) ;;
    logging_error [Lit line] ;;
    if truthy stack then
      line' <- str_add ("[JS stack]" ++ nl) stack ;;
      logging_error [Lit line']
    else pass
  else
    text <- of_outcome (fmt message) ;;
    logging_info [Lit "[JS message] "; FStr text].

Definition _on_message (fmt : formatter) (message data : pyval) : M unit :=
  try_ (interpret fmt message)
    [ except_ is_Exception (fun e =>
        logging_error [Lit "解析 JS 消息失败: "; FStr (str_exn e)]) ].

(** ** The wrapped script text, lines 57-81

    The f-string, line by line.  [time] is [datetime.now().isoformat()] and
    [raw_js] is the text read from the script file; both are pasted in
    unchanged. *)

Definition lines (ls : list string) : string :=
  String.concat "" (map (fun l => l ++ nl) ls).

Definition wrapped_js (time raw_js : string) : string :=
  nl ++ lines [
  "        (function() {";
  "          try {";
  "            send({" ++ quoted "stage" ++ ":" ++ quoted "boot" ++ ","
     ++ quoted "time" ++ ":" ++ quoted time ++ ","
     ++ quoted "msg" ++ ":" ++ quoted "js wrapper entered" ++ "});";
  "";
  "            " ++ raw_js;
  "";
  "            // 如果能运行到这里，说明脚本顶层没有崩";
  "            send({" ++ quoted "stage" ++ ":" ++ quoted "boot" ++ ","
     ++ quoted "msg" ++ ":" ++ quoted "js wrapper finished (top-level ok)"
     ++ "});";
  "";
  "            // 尝试在 JS 侧确认 rpc.exports 是否存在 decrypt";
  "            try {";
  "              var hasDecrypt = (typeof rpc !== " ++ quoted "undefined"
     ++ ") && rpc.exports && (typeof rpc.exports.decrypt === "
     ++ quoted "function" ++ ");";
  "              send({" ++ quoted "stage" ++ ":" ++ quoted "exports" ++ ","
     ++ quoted "hasDecrypt" ++ ":hasDecrypt, " ++ quoted "exportKeys"
     ++ ": rpc && rpc.exports ? Object.keys(rpc.exports) : null });";
  "            } catch (e) {";
  "              send({" ++ quoted "stage" ++ ":" ++ quoted "exports" ++ ","
     ++ quoted "error" ++ ": String(e)})";
  "            }";
  "";
  "          } catch (e) {";
  "            // 顶层异常会直接导致 rpc.exports 未注册，这就是你当前症状的最常见根因";
  "            send({" ++ quoted "stage" ++ ":" ++ quoted "fatal" ++ ","
     ++ quoted "error" ++ ": String(e), " ++ quoted "stack"
     ++ ": e && e.stack ? String(e.stack) : null });";
  "            throw e;";
  "          }";
  "        })();" ]
  ++ "        ".

(** ** The world outside the program

    Each call that leaves the program either returns or raises.  One run makes
    each call at most once, except the [exports_sync] property, which is read
    twice (lines 98 and 101); its outcome is indexed by the read. *)

Record World : Type := {
  py_format : formatter;                          (* format(v, "") *)
  os_path_exists : string -> bool;
  os_path_abspath : string -> string;
  frida_attach : string -> outcome session;
  open_ : string -> outcome unit;                 (* open(js_path, "r", ...) *)
  f_read : outcome string;                        (* f.read() *)
  datetime_now_isoformat : string;
  create_script : session -> string -> outcome script;
  script_on : script -> outcome unit;             (* script.on("message", ...) *)
  (* script.load(): the messages the runtime hands to the sink while the
     call is in progress, then how the call ends *)
  script_load : script -> list (pyval * pyval) * outcome unit;
  exports_sync : script -> nat -> outcome unit;   (* n-th read of the property *)
  getattr_decrypt : script -> outcome unit;       (* getattr(..., "decrypt") *)
  (* time.sleep(secs) for a wait that passes its argument checks: whether
     the system's sleep returns or raises *)
  sleep_outcome : spec_float -> outcome unit;
  (* the messages the runtime hands to the sink during the sleep *)
  sleep_messages : list (pyval * pyval);
  session_detach : session -> outcome unit
}.

(** The same world with another outcome for [session.detach()]. *)
Definition with_detach (d : session -> outcome unit) (w : World) : World := {|
  py_format := py_format w;
  os_path_exists := os_path_exists w;
  os_path_abspath := os_path_abspath w;
  frida_attach := frida_attach w;
  open_ := open_ w;
  f_read := f_read w;
  datetime_now_isoformat := datetime_now_isoformat w;
  create_script := create_script w;
  script_on := script_on w;
  script_load := script_load w;
  exports_sync := exports_sync w;
  getattr_decrypt := getattr_decrypt w;
  sleep_outcome := sleep_outcome w;
  sleep_messages := sleep_messages w;
  session_detach := d
|}.

(** An external call: its event, then its outcome. *)
Definition call {A} (ev : event) (o : outcome A) : M A :=
  emit ev ;;
  match o with
  | Ok a => ret a
  | Err e => raise e
  end.

(** The runtime calls the sink on its own thread: what the sink logs is
    appended to the trace, and the sink's completion has no way into the
    host's control flow. *)
Fixpoint deliver (fmt : formatter) (msgs : list (pyval * pyval)) : M unit :=
  match msgs with
  | [] => pass
  | (message, data) :: rest =>
      (fst (_on_message fmt message data), Normal tt) ;; deliver fmt rest
  end.

(** ** [time.sleep(secs)]

    CPython first checks its argument: NaN gives [ValueError], an infinity
    gives [OverflowError], and a negative wait gives [ValueError], or
    [OverflowError] when its count of nanoseconds does not fit 64 bits.  For
    any other wait, zero or positive, whether the call returns or raises
    (a wait too long for the interpreter or for the system's sleep) is the
    world's: [sleep_outcome]. *)

Definition ns_out_of_range (m : positive) (e : Z) : bool :=
  if (0 <=? e)%Z
  then (2 ^ 63 <? Z.pos m * 2 ^ e * 10 ^ 9)%Z
  else (2 ^ 63 * 2 ^ (- e) <? Z.pos m * 10 ^ 9)%Z.

(** The exception [time.sleep(secs)] raises in world [w], if it raises. *)
Definition sleep_error (w : World) (secs : spec_float) : option exn :=
  match secs with
  | S754_nan =>
      Some (mk_exn ValueError "Invalid value NaN (not a number)")
  | S754_infinity _ =>
      Some (mk_exn OverflowError "timestamp too large to convert to C _PyTime_t")
  | S754_finite true m e =>
      if ns_out_of_range m e then
        Some (mk_exn OverflowError "timestamp too large to convert to C _PyTime_t")
      else
        Some (mk_exn ValueError "sleep length must be non-negative")
  | S754_zero _ | S754_finite false _ _ =>
      match sleep_outcome w secs with
      | Ok _ => None
      | Err e => Some e
      end
  end.

(** [x < 0] on floats: [-0.0] and NaN are not negative. *)
Definition is_negative (secs : spec_float) : bool :=
  match secs with
  | S754_infinity true => true
  | S754_finite true _ _ => true
  | _ => false
  end.

(** [float(x)] of a float is the float itself. *)
Definition float (x : spec_float) : spec_float := x.

Section Host.

Variable w : World.

Definition time_sleep (secs : spec_float) : M unit :=
  emit (EvSleep secs) ;;
  match sleep_error w secs with
  | Some e => raise e
  | None => deliver (py_format w) (sleep_messages w)
  end.

(** Lines 53-85: the body of the second [try]. *)
Definition load_script (session : session) (js_path : string) : M script :=
  call (EvOpen js_path) (open_ w js_path) ;;
  raw_js <- try_ (call EvRead (f_read w))
              [ except_ is_Exception (fun e => emit EvClose ;; raise e) ] ;;
  emit EvClose ;;
  now <- call EvNow (Ok (datetime_now_isoformat w)) ;;
  let wrapped_js := wrapped_js now raw_js in
  script <- call (EvCreateScript session wrapped_js)
                 (create_script w session wrapped_js) ;;
  call (EvOn script) (script_on w script) ;;
  emit (EvLoad script) ;;
  deliver (py_format w) (fst (script_load w script)) ;;
  match snd (script_load w script) with
  | Ok _ => ret script
  | Err e => raise e
  end.

(** Lines 96-107: the host-side probe of the export. *)
Definition probe_exports (script : script) : M unit :=
  try_ (
    call (EvExportsSync script) (exports_sync w script 0) ;;
    try_ (
      call (EvExportsSync script) (exports_sync w script 1) ;;
      call (EvGetattr script "decrypt") (getattr_decrypt w script) ;;
      logging_info
        [Lit "Python 侧：找到 exports_sync.decrypt（但仍需看 JS 侧 hasDecrypt=true 才算真注册）"]
    ) [ except_ is_Exception (fun e =>
          logging_error
            [Lit "Python 侧：无法获取 exports_sync.decrypt: "; FStr (str_exn e)]) ]
  ) [ except_ is_Exception (fun e =>
        logging_error
          [Lit "Python 侧：exports_sync 不可用（多半 rpc 未注册）: ";
           FStr (str_exn e)]) ].

(** ** [run_diag], lines 34-118 *)

Definition run_diag (process_name js_path : string) (wait_seconds : spec_float)
  : M unit :=
  emit (EvExists js_path) ;;
  (if negb (os_path_exists w js_path) then
     logging_error [Lit "找不到脚本文件: "; FStr (os_path_abspath w js_path)] ;;
     return_ 2
   else pass) ;;

  session <- try_ (call (EvAttach process_name) (frida_attach w process_name))
    [ except_ is_ProcessNotFoundError (fun _ =>
        logging_error [Lit "未找到进程 "; FStr process_name;
                       Lit "，请先启动目标程序后再运行 --diag"] ;;
        return_ 2);
      except_ is_Exception (fun e =>
        logging_error [Lit "attach 失败: "; FStr (str_exn e)] ;;
        return_ 2) ] ;;

  script <- try_ (load_script session js_path)
    [ except_ is_Exception (fun e =>
        logging_error [Lit "加载/运行脚本失败: "; FStr (str_exn e)] ;;
        try_ (call (EvDetach session) (session_detach w session))
          [ except_ is_Exception (fun _ => pass) ] ;;
        return_ 2) ] ;;

  probe_exports script ;;

  logging_info [Lit "诊断模式等待 "; FVal (PFloat wait_seconds);
                Lit " 秒收集 JS 消息..."] ;;
  time_sleep (float wait_seconds) ;;

  try_ (call (EvDetach session) (session_detach w session))
    [ except_ is_Exception (fun _ => pass) ] ;;

  logging_info
    [Lit "诊断结束。请把控制台输出（尤其是 [JS error]/[JS send] stage=fatal/exports）发我。"] ;;
  return_ 0.

End Host.

(** ** Worlds for the examples *)

(** The formatter of the examples: Python's text for [None], the booleans,
    the integers (with the default limit of 4300 digits) and the strings.
    The examples format nothing else; any other value is shown here by its
    type name, which is not Python's text for it. *)
Definition example_format : formatter := fun v =>
  match v with
  | PNone => Ok "None"
  | PBool true => Ok "True"
  | PBool false => Ok "False"
  | PInt n =>
      let digits := NilZero.string_of_uint (N.to_uint (Z.abs_N n)) in
      if (4300 <? String.length digits)%nat
      then Err (mk_exn ValueError
                  "Exceeds the limit (4300 digits) for integer string conversion; use sys.set_int_max_str_digits() to increase the limit")
      else Ok (NilZero.string_of_int (Z.to_int n))
  | PStr s => Ok s
  | _ => Ok ("<" ++ type_name v ++ ">")
  end.

(** The script file is there or not, attach and read end as given, every
    other call returns, and the runtime delivers one message during the load
    and one during the sleep. *)

Definition example_world (script_there : bool) (attach : outcome session)
    (read : outcome string) : World := {|
  py_format := example_format;
  os_path_exists := fun _ => script_there;
  os_path_abspath := fun path => "/tmp/" ++ path;
  frida_attach := fun _ => attach;
  open_ := fun _ => Ok tt;
  f_read := read;
  datetime_now_isoformat := "2024-05-01T12:00:00.000001";
  create_script := fun _ _ => Ok (Script 1);
  script_on := fun _ => Ok tt;
  script_load := fun _ =>
    ([(PDict [("type", PStr "send"); ("payload", PStr "hooks installed")],
       PNone)],
     Ok tt);
  exports_sync := fun _ _ => Ok tt;
  getattr_decrypt := fun _ => Ok tt;
  sleep_outcome := fun _ => Ok tt;
  sleep_messages :=
    [(PDict [("type", PStr "error"); ("description", PStr "Error: x")], PNone)];
  session_detach := fun _ => Ok tt
|}.

Definition happy_world : World :=
  example_world true (Ok (Session 1)) (Ok "rpc.exports = {};").

(** The floats 3.0 and -1.0 *)
Definition three_seconds : spec_float := S754_finite false 6755399441055744 (-51).
Definition minus_one_second : spec_float := S754_finite true 4503599627370496 (-52).

(** ** Reading a trace *)

Definition is_detach (ev : event) : bool :=
  match ev with EvDetach _ => true | _ => false end.

Definition is_attach (ev : event) : bool :=
  match ev with EvAttach _ => true | _ => false end.

Definition is_log (ev : event) : bool :=
  match ev with EvLog _ _ => true | _ => false end.

Definition count (p : event -> bool) (t : trace) : nat :=
  length (filter p t).

Definition error_logs (t : trace) : list (list piece) :=
  flat_map (fun ev => match ev with EvLog ERROR msg => [msg] | _ => [] end) t.

End Py.

(* ===================================================================== *)
(** * Part II.  The JavaScript wrapper *)
(* ===================================================================== *)

Module JS.

(** ** Values

    Objects are plain data: a list of own enumerable properties in
    enumeration order.  Accessor properties, proxies and objects with their
    own [toString] are outside the model, and numbers are the integers of
    magnitude below 10^21, which [String] prints as their decimal digits. *)

Inductive jsval : Type :=
| JUndefined
| JNull
| JBool (b : bool)
| JNum (n : Z)
| JStr (s : string)
| JFunction (source : string)
| JArray (xs : list jsval)
| JObject (props : list (string * jsval))
| JError (name message : string) (stack : jsval).   (* an Error instance *)

(** The properties the wrapper reads. *)
Inductive prop : Type := exports | decrypt | stack.

Definition prop_name (p : prop) : string :=
  match p with
  | exports => "exports"
  | decrypt => "decrypt"
  | stack => "stack"
  end.

(** [typeof v] *)
Definition typeof (v : jsval) : string :=
  match v with
  | JUndefined => "undefined"
  | JNull => "object"
  | JBool _ => "boolean"
  | JNum _ => "number"
  | JStr _ => "string"
  | JFunction _ => "function"
  | JArray _ | JObject _ | JError _ _ _ => "object"
  end.

(** Truthiness, as [&&] and [?:] test it. *)
Definition to_boolean (v : jsval) : bool :=
  match v with
  | JUndefined | JNull => false
  | JBool b => b
  | JNum n => negb (Z.eqb n 0)
  | JStr s => negb (String.eqb s "")
  | _ => true
  end.

Definition string_of_Z (n : Z) : string := NilZero.string_of_int (Z.to_int n).
Definition string_of_nat (n : nat) : string :=
  NilZero.string_of_uint (Nat.to_uint n).

(** [String(v)], for the values above.  (From 10^21 on a number is printed
    with an exponent, [1e+21]; such numbers are not in the model.) *)
Fixpoint to_string (v : jsval) : string :=
  match v with
  | JUndefined => "undefined"
  | JNull => "null"
  | JBool true => "true"
  | JBool false => "false"
  | JNum n => string_of_Z n
  | JStr s => s
  | JFunction source => source
  | JArray xs =>
      String.concat ","
        (map (fun x => match x with
                       | JUndefined | JNull => ""
                       | _ => to_string x
                       end) xs)
  | JObject _ => "[object Object]"
  | JError name message _ =>
      if String.eqb name "" then message
      else if String.eqb message "" then name
      else name ++ ": " ++ message
  end.

Fixpoint lookup (key : string) (props : list (string * jsval)) : jsval :=
  match props with
  | [] => JUndefined
  | (k, v) :: rest => if String.eqb k key then v else lookup key rest
  end.

(** [v.p] on a value that is neither [undefined] nor [null], for one of the
    three property names; none of them is inherited by a primitive, a
    function or an array. *)
Definition read_prop (v : jsval) (p : prop) : jsval :=
  match v with
  | JObject props => lookup (prop_name p) props
  | JError _ _ st => match p with stack => st | _ => JUndefined end
  | _ => JUndefined
  end.

(** Length of a string in UTF-16 code units, from its UTF-8 bytes. *)
Fixpoint utf16_length (s : string) : nat :=
  match s with
  | EmptyString => 0
  | String c rest =>
      let b := nat_of_ascii c in
      ((if b <? 128 then 1          (* ASCII *)
        else if b <? 192 then 0     (* continuation byte *)
        else if b <? 240 then 1     (* lead of 2 or 3 bytes *)
        else 2)                     (* lead of 4 bytes: a surrogate pair *)
       + utf16_length rest)%nat
  end.

Definition index_keys (n : nat) : jsval :=
  JArray (map (fun i => JStr (string_of_nat i)) (seq 0 n)).

(** ** The message channel and the completion of a block *)

Inductive origin : Type := Wrapper | Body.

Record sent : Type := Sent { sent_by : origin; sent_msg : jsval }.

Inductive completion (A : Type) : Type :=
| Val (a : A)          (* normal completion *)
| Throw (e : jsval)    (* an exception is propagating *)
| Ret.                 (* a [return] left the enclosing function *)

Arguments Val {A} a.
Arguments Throw {A} e.
Arguments Ret {A}.

Definition J (A : Type) : Type := list sent * completion A.

Definition ret {A} (a : A) : J A := ([], Val a).
Definition throw {A} (e : jsval) : J A := ([], Throw e).

Definition bind {A B} (m : J A) (k : A -> J B) : J B :=
  match m with
  | (t, Val a) => let (t', c) := k a in ((t ++ t')%list, c)
  | (t, Throw e) => (t, Throw e)
  | (t, Ret) => (t, Ret)
  end.

Declare Scope js_scope.
Delimit Scope js_scope with js.
Notation "x <- m ;; k" := (bind m (fun x => k))
  (at level 61, m at next level, right associativity) : js_scope.
Notation "m ;; k" := (bind m (fun _ => k))
  (at level 61, right associativity) : js_scope.
Local Open Scope js_scope.


(** [try { m } catch (e) { h }] *)
Definition try_catch {A} (m : J A) (h : jsval -> J A) : J A :=
  match m with
  | (t, Throw e) => let (t', c) := h e in ((t ++ t')%list, c)
  | _ => m
  end.

(** [(function() { m })()]: a [return] ends the call normally. *)
Definition call_function (m : J unit) : J unit :=
  match m with
  | (t, Ret) => (t, Val tt)
  | _ => m
  end.

(** [send(v)], called by the wrapper *)
Definition send (v : jsval) : J unit := ([Sent Wrapper v], Val tt).

(** ** The engine and the scope

    The engine decides what it throws for an unresolvable identifier and for
    a conversion of [undefined] or [null] to an object; the wrapper only
    hands the thrown value to [String]. *)

Record Engine : Type := {
  reference_error : string -> jsval;   (* the identifier that did not resolve *)
  type_error : jsval -> jsval;         (* the value that is not an object *)
  error_keys : list string             (* own enumerable properties the engine
                                          gives an Error instance *)
}.

(** What an identifier of the wrapper's scope resolves to. *)
Inductive binding : Type :=
| Unresolvable
| Bound (v : jsval).

(** The pasted script body, by what it does when run: the messages it sends,
    how its top level ends, and what [rpc] resolves to afterwards for the
    code that follows it ([var], [let] and [const] of the body are in scope
    there). *)

Inductive body_end : Type :=
| FallsThrough
| Throws (e : jsval)
| Returns.

Record body : Type := {
  body_sends : list jsval;
  body_ending : body_end;
  rpc_after : binding
}.

Definition run_body (b : body) : J unit :=
  (map (Sent Body) (body_sends b),
   match body_ending b with
   | FallsThrough => Val tt
   | Throws e => Throw e
   | Returns => Ret
   end).

Section Wrapper.

Variable engine : Engine.

(** [typeof x] on an identifier does not throw. *)
Definition typeof_ident (x : binding) : string :=
  match x with
  | Unresolvable => "undefined"
  | Bound v => typeof v
  end.

Definition ident (name : string) (x : binding) : J jsval :=
  match x with
  | Unresolvable => throw (reference_error engine name)
  | Bound v => ret v
  end.

(** [v.p]: reading a property of [undefined] or [null] throws. *)
Definition get_prop (v : jsval) (p : prop) : J jsval :=
  match v with
  | JUndefined | JNull => throw (type_error engine v)
  | _ => ret (read_prop v p)
  end.

(** [Object.keys(v)] *)
Definition object_keys (v : jsval) : J jsval :=
  match v with
  | JUndefined | JNull => throw (type_error engine v)
  | JObject props => ret (JArray (map (fun kv => JStr (fst kv)) props))
  | JArray xs => ret (index_keys (length xs))
  | JStr s => ret (index_keys (utf16_length s))
  | JError _ _ _ => ret (JArray (map JStr (error_keys engine)))
  | JBool _ | JNum _ | JFunction _ => ret (JArray [])
  end.

(** [a && b]: [b] is evaluated only when [a] is truthy. *)
Definition and_ (a b : J jsval) : J jsval :=
  x <- a ;; if to_boolean x then b else ret x.

(** The messages of the wrapper *)

Definition boot_msg (time : string) : jsval :=
  JObject [("stage", JStr "boot"); ("time", JStr time);
           ("msg", JStr "js wrapper entered")].

Definition finished_msg : jsval :=
  JObject [("stage", JStr "boot");
           ("msg", JStr "js wrapper finished (top-level ok)")].

Definition exports_msg (hasDecrypt exportKeys : jsval) : jsval :=
  JObject [("stage", JStr "exports"); ("hasDecrypt", hasDecrypt);
           ("exportKeys", exportKeys)].

Definition exports_error_msg (error : string) : jsval :=
  JObject [("stage", JStr "exports"); ("error", JStr error)].

Definition fatal_msg (error : string) (stack : jsval) : jsval :=
  JObject [("stage", JStr "fatal"); ("error", JStr error); ("stack", stack)].

(** Lines 69-70: the two expressions that inspect the export registry. *)
Definition inspect_exports (rpc : binding) : J (jsval * jsval) :=
  hasDecrypt <-
    and_ (and_ (ret (JBool (negb (String.eqb (typeof_ident rpc) "undefined"))))
               (r <- ident "rpc" rpc ;; get_prop r exports))
         (r <- ident "rpc" rpc ;;
          e <- get_prop r exports ;;
          d <- get_prop e decrypt ;;
          ret (JBool (String.eqb (typeof d) "function"))) ;;
  c <- and_ (ident "rpc" rpc) (r <- ident "rpc" rpc ;; get_prop r exports) ;;
  exportKeys <-
    (if to_boolean c
     then r <- ident "rpc" rpc ;; e <- get_prop r exports ;; object_keys e
     else ret JNull) ;;
  ret (hasDecrypt, exportKeys).

(** Lines 68-73: the inner [try]/[catch]. *)
Definition check_exports (rpc : binding) : J unit :=
  try_catch (
    r <- inspect_exports rpc ;;
    send (exports_msg (fst r) (snd r))
  ) (fun e =>
    send (exports_error_msg (to_string e))).

(** Line 77: [e && e.stack ? String(e.stack) : null] *)
Definition stack_of (e : jsval) : J jsval :=
  c <- and_ (ret e) (get_prop e stack) ;;
  if to_boolean c
  then st <- get_prop e stack ;; ret (JStr (to_string st))
  else ret JNull.

(** ** The wrapper, lines 58-80

    This is the wrapper around a body that leaves the names [send], [String]
    and [Object] alone: each [send] is the runtime's, and [String] and
    [Object.keys] are the engine's own, applied to plain data.  [Scoped]
    has the wrapper without that assumption. *)

Definition wrapper (time : string) (b : body) : J unit :=
  call_function (
    try_catch (
      send (boot_msg time) ;;
      run_body b ;;
      send finished_msg ;;
      check_exports (rpc_after b)
    ) (fun e =>
      st <- stack_of e ;;
      send (fatal_msg (to_string e) st) ;;
      throw e)).

End Wrapper.

(** ** Reading the channel *)



(** ** Bodies for the examples *)

(** [rpc.exports = { decrypt: function (x) { return x; } };] *)
Definition registering_body : body := {|
  body_sends := [];
  body_ending := FallsThrough;
  rpc_after :=
    Bound (JObject
             [("exports",
               JObject [("decrypt", JFunction "function (x) { return x; }")])])
|}.

(** [var rpc = null;] *)
Definition shadowing_body : body := {|
  body_sends := [];
  body_ending := FallsThrough;
  rpc_after := Bound JNull
|}.

(** [send("hooking"); throw new Error("no module");] *)
Definition throwing_body : body := {|
  body_sends := [JStr "hooking"];
  body_ending := Throws (JError "Error" "no module" (JStr "at <anonymous>"));
  rpc_after := Bound (JObject [("exports", JObject [])])
|}.

(** An engine for the examples; its texts stand for whatever the real
    engine reports. *)
Definition sample_engine : Engine := {|
  reference_error := fun name =>
    JError "ReferenceError" (name ++ " is not defined") (JStr "at <anonymous>");
  type_error := fun v =>
    JError "TypeError" ("cannot read properties of " ++ to_string v)
           (JStr "at <anonymous>");
  error_keys := ["fileName"; "lineNumber"; "columnNumber"]
|}.

End JS.

(* ===================================================================== *)
(** * Part II, continued.  The script entry point and further readings *)
(* ===================================================================== *)

Module Cli.

Import Py.

(** ** The [__main__] block, lines 121-140

    [args] is the namespace [parser.parse_args()] returned; the parsing
    itself belongs to argparse and is not modelled. *)

Record Namespace : Type := {
  diag : bool;          (* --diag, store_true *)
  proc : string;        (* --proc, default "QQMusic.exe" *)
  js : string;          (* --js, default "hook_qq_music.js" *)
  wait : spec_float     (* --wait, type=float, default 3.0 *)
}.

(** How the process ends: [sys.exit(status)], or an exception nobody caught,
    which the interpreter reports with a traceback and status 1. *)
Inductive termination : Type :=
| Exit (status : Z)
| Uncaught (e : exn).

Definition exit_status (t : termination) : Z :=
  match t with
  | Exit status => status
  | Uncaught _ => 1
  end.

Inductive main_event : Type :=
| BasicConfig                 (* logging.basicConfig(...) *)
| Ran (ev : event)            (* an event of run_diag *)
| Printed (line : string).    (* print(...) *)

(** [sys.exit(x)] for what a call completed with; [sys.exit(None)] is
    status 0. *)
Definition sys_exit (c : completion unit) : termination :=
  match c with
  | Return_ code => Exit code
  | Normal _ => Exit 0
  | Raise e => Uncaught e
  end.

Definition main (w : World) (args : Namespace) : list main_event * termination :=
  if diag args then
    let r := run_diag w (proc args) (js args) (wait args) in
    (BasicConfig :: map Ran (fst r), sys_exit (snd r))
  else
    ([BasicConfig;
      Printed "本版本仅提供 --diag 诊断模式，不包含文件处理逻辑。";
      Printed "用法示例：python main.py --diag --wait 5"],
     Exit 0).

(** The namespace of a command line without options. *)
Definition default_args : Namespace := {|
  diag := false;
  proc := "QQMusic.exe";
  js := "hook_qq_music.js";
  wait := three_seconds
|}.

(** The same world with another outcome for the system's sleep. *)
Definition with_sleep (o : spec_float -> outcome unit) (w : World) : World := {|
  py_format := py_format w;
  os_path_exists := os_path_exists w;
  os_path_abspath := os_path_abspath w;
  frida_attach := frida_attach w;
  open_ := open_ w;
  f_read := f_read w;
  datetime_now_isoformat := datetime_now_isoformat w;
  create_script := create_script w;
  script_on := script_on w;
  script_load := script_load w;
  exports_sync := exports_sync w;
  getattr_decrypt := getattr_decrypt w;
  sleep_outcome := o;
  sleep_messages := sleep_messages w;
  session_detach := session_detach w
|}.

(** The float 9223372036.0, a wait of some 292 years. *)
Definition long_wait : spec_float := S754_finite false 4835703278010368 (-19).

Definition is_ran (ev : main_event) : bool :=
  match ev with Ran _ => true | _ => false end.

(** ** Further readings of a message and of a trace *)

Definition is_str (v : pyval) : bool :=
  match v with PStr _ => true | _ => false end.

(** A field the sink can use as text: a str, or a value that counts as
    absent ([None], a missing key, an empty string and the like). *)
Definition text_or_absent (v : pyval) : bool := negb (truthy v) || is_str v.

Definition is_dict (v : pyval) : bool :=
  match v with PDict _ => true | _ => false end.

Definition is_info (ev : event) : bool :=
  match ev with EvLog INFO _ => true | _ => false end.

End Cli.

Module Channel.

Import JS.


(** [undefined] and [null]: the values a property read throws on. *)
Definition nullish (v : jsval) : bool :=
  match v with JUndefined | JNull => true | _ => false end.

End Channel.

Module Scoped.

Import JS.
Local Open Scope js_scope.

(** ** The wrapper among the declarations of the body

    The body is pasted into the wrapper's own function, inside its [try]
    block.  So the names the wrapper uses without declaring them, [send],
    [String] and [Object], mean what the body makes them mean: a [var] or a
    function declaration of the body is hoisted above the wrapper's first
    line, a [let] or [const] puts the name in its temporal dead zone up to
    the declaration, and an assignment changes the name from then on.  The
    [catch] block sees the function's names but not those the body declared
    for the [try] block alone.  A script is therefore described by its body
    and by what each of the wrapper's calls meets at its place. *)

(** How a call of code other than the runtime's [send] ends. *)
Inductive result : Type :=
| Returned (v : jsval)
| Threw (e : jsval).

(** What a called name stands for at one place of the wrapper. *)
Inductive callee : Type :=
| TheSend
    (* the runtime's [send]: the argument goes to the channel *)
| Code (unresolved : option jsval) (run : jsval -> list jsval * result).
    (* anything else.  [unresolved = Some e]: reading the name throws [e]
       (no binding, or a temporal dead zone).  Otherwise [run a] is the call
       with argument [a]: the messages the called code sends and how it
       ends; for a value that is not a function it is the engine's
       TypeError. *)

Definition returning (v : jsval) : callee :=
  Code None (fun _ => ([], Returned v)).

Definition not_a_function (error : jsval) : callee :=
  Code None (fun _ => ([], Threw error)).

Definition unbound (error : jsval) : callee :=
  Code (Some error) (fun _ => ([], Returned JUndefined)).

(** [f(argument)]: the name is read first, then the argument is evaluated,
    then the call is made. *)
Definition call_ (f : callee) (argument : J jsval) : J jsval :=
  match f with
  | TheSend =>
      a <- argument ;; ([Sent Wrapper a], Val JUndefined)
  | Code (Some e) _ => throw e
  | Code None run =>
      a <- argument ;;
      (map (Sent Body) (fst (run a)),
       match snd (run a) with
       | Returned v => Val v
       | Threw e => Throw e
       end)
  end.

(** An expression statement: the value is dropped. *)
Definition exec (m : J jsval) : J unit :=
  match m with
  | (t, Val _) => (t, Val tt)
  | (t, Throw e) => (t, Throw e)
  | (t, Ret) => (t, Ret)
  end.

Record script : Type := {
  script_body : body;
  send_boot : callee;       (* [send] at line 60, before the body runs *)
  send_finished : callee;   (* [send] at line 65 *)
  send_exports : callee;    (* [send] at line 70 *)
  send_error : callee;      (* [send] at line 72 *)
  send_fatal : callee;      (* [send] at line 77, in the outer [catch] *)
  String_error : callee;    (* [String] at line 72 *)
  String_fatal : callee;    (* [String(e)] at line 77 *)
  String_stack : callee;    (* [String(e.stack)] at line 77 *)
  Object_keys : callee      (* [Object.keys] at line 70 *)
}.

Section Wrapper.

Variable engine : Engine.

(** Line 69: the value assigned to [hasDecrypt]. *)
Definition has_decrypt (rpc : binding) : J jsval :=
  and_ (and_ (ret (JBool (negb (String.eqb (typeof_ident rpc) "undefined"))))
             (r <- ident engine "rpc" rpc ;; get_prop engine r exports))
       (r <- ident engine "rpc" rpc ;;
        e <- get_prop engine r exports ;;
        d <- get_prop engine e decrypt ;;
        ret (JBool (String.eqb (typeof d) "function"))).

(** Line 70: the value of the "exportKeys" property. *)
Definition export_keys (sc : script) : J jsval :=
  let rpc := rpc_after (script_body sc) in
  c <- and_ (ident engine "rpc" rpc)
            (r <- ident engine "rpc" rpc ;; get_prop engine r exports) ;;
  if to_boolean c
  then call_ (Object_keys sc)
             (r <- ident engine "rpc" rpc ;; get_prop engine r exports)
  else ret JNull.

(** Lines 68-73: the inner [try]/[catch]. *)
Definition check_exports (sc : script) : J unit :=
  try_catch (
    hasDecrypt <- has_decrypt (rpc_after (script_body sc)) ;;
    exec (call_ (send_exports sc) (
      exportKeys <- export_keys sc ;;
      ret (JObject [("stage", JStr "exports"); ("hasDecrypt", hasDecrypt);
                    ("exportKeys", exportKeys)])))
  ) (fun e =>
    exec (call_ (send_error sc) (
      error <- call_ (String_error sc) (ret e) ;;
      ret (JObject [("stage", JStr "exports"); ("error", error)])))).

(** ** The wrapper, lines 58-80 *)

Definition wrapper (time : string) (sc : script) : J unit :=
  call_function (
    try_catch (
      exec (call_ (send_boot sc)
              (ret (JObject [("stage", JStr "boot"); ("time", JStr time);
                             ("msg", JStr "js wrapper entered")]))) ;;
      run_body (script_body sc) ;;
      exec (call_ (send_finished sc)
              (ret (JObject [("stage", JStr "boot");
                             ("msg", JStr "js wrapper finished (top-level ok)")]))) ;;
      check_exports sc
    ) (fun e =>
      exec (call_ (send_fatal sc) (
        error <- call_ (String_fatal sc) (ret e) ;;
        c <- and_ (ret e) (get_prop engine e stack) ;;
        stack_text <-
          (if to_boolean c
           then call_ (String_stack sc) (get_prop engine e stack)
           else ret JNull) ;;
        ret (JObject [("stage", JStr "fatal"); ("error", error);
                      ("stack", stack_text)]))) ;;
      throw e)).

End Wrapper.

(** ** Scripts for the examples *)

(** A script that leaves [send] alone: every [send] is the runtime's, the
    calls of [String] on an exception and on a stack do what [error_text]
    and [stack_text] say, and the call of [Object.keys] what [keys_call]
    says. *)
Definition undisturbed (b : body) (error_text stack_text keys_call : callee)
  : script := {|
  script_body := b;
  send_boot := TheSend;
  send_finished := TheSend;
  send_exports := TheSend;
  send_error := TheSend;
  send_fatal := TheSend;
  String_error := error_text;
  String_fatal := error_text;
  String_stack := stack_text;
  Object_keys := keys_call
|}.

(** [rpc.exports = { decrypt: function (x) { return x; } };] *)
Definition registering_script : script :=
  undisturbed registering_body
    (returning (JStr "")) (returning (JStr ""))
    (returning (JArray [JStr "decrypt"])).

(** [var rpc = null;] *)
Definition rpc_shadowed : script :=
  undisturbed shadowing_body
    (returning (JStr "TypeError: cannot read properties of null"))
    (returning (JStr "at <anonymous>"))
    (returning (JArray [])).

(** [send("hooking"); throw new Error("no module");] *)
Definition throwing_script : script :=
  undisturbed throwing_body
    (returning (JStr "Error: no module"))
    (returning (JStr "at <anonymous>"))
    (returning (JArray [])).


(** [var String = null; var rpc = null;], followed by nothing or by a
    [throw]: [String] is not a function where the two [catch] blocks call
    it. *)
Definition string_rebound (ending : body_end) : script := {|
  script_body := {| body_sends := []; body_ending := ending;
                    rpc_after := Bound JNull |};
  send_boot := TheSend;
  send_finished := TheSend;
  send_exports := TheSend;
  send_error := TheSend;
  send_fatal := TheSend;
  String_error := not_a_function
                    (JError "TypeError" "String is not a function"
                       (JStr "at <anonymous>"));
  String_fatal := not_a_function
                    (JError "TypeError" "String is not a function"
                       (JStr "at <anonymous>"));
  String_stack := not_a_function
                    (JError "TypeError" "String is not a function"
                       (JStr "at <anonymous>"));
  Object_keys := returning (JArray [])
|}.

End Scoped.

(* ===================================================================== *)
(** * Part III.  Theorems *)
(* ===================================================================== *)

Module PyFacts.

Import Py.
Local Open Scope py_scope.
Local Open Scope list_scope.

(** ** Traces *)

Lemma count_app p (t t' : trace) :
  count p (t ++ t') = (count p t + count p t')%nat.
Proof.
  unfold count. now rewrite filter_app, length_app.
Qed.

Lemma count_logs_only p (t : trace) :
  (forall lvl msg, p (EvLog lvl msg) = false) ->
  forallb is_log t = true -> count p t = 0%nat.
Proof.
  intros Hp. unfold count.
  induction t as [|ev t IH]; intros Hlog; [reflexivity|].
  cbn in Hlog. apply andb_prop in Hlog as [Hev Ht].
  destruct ev; try discriminate Hev.
  cbn. rewrite Hp. now apply IH.
Qed.

Lemma forallb_app_true {A} (f : A -> bool) (l l' : list A) :
  forallb f l = true -> forallb f l' = true -> forallb f (l ++ l') = true.
Proof.
  intros H H'. rewrite forallb_app, H, H'. reflexivity.
Qed.

(** ** The sink *)

Lemma interpret_no_return fmt message code :
  snd (interpret fmt message) <> Return_ code.
Proof.
  unfold interpret.
  destruct message; try (cbn; discriminate).
  cbn.
  destruct (eq_str _ "send").
  { destruct (fmt _); cbn; discriminate. }
  destruct (eq_str _ "error").
  2:{ destruct (fmt _); cbn; discriminate. }
  cbn.
  destruct (py_or _ _); try (cbn; discriminate).
  cbn.
  destruct (truthy _); [|cbn; discriminate].
  destruct (dict_get "stack" kvs); cbn; discriminate.
Qed.

Lemma interpret_logs fmt message :
  forallb is_log (fst (interpret fmt message)) = true.
Proof.
  unfold interpret.
  destruct message; try reflexivity.
  cbn.
  destruct (eq_str _ "send").
  { destruct (fmt _); reflexivity. }
  destruct (eq_str _ "error").
  2:{ destruct (fmt _); reflexivity. }
  cbn.
  destruct (py_or _ _); try reflexivity.
  cbn.
  destruct (truthy _); [|reflexivity].
  destruct (dict_get "stack" kvs); reflexivity.
Qed.

Lemma on_message_normal fmt message data :
  snd (_on_message fmt message data) = Normal tt.
Proof.
  unfold _on_message, try_.
  pose proof (interpret_no_return fmt message) as Hnr.
  destruct (interpret fmt message) as [t [[]|code|e]]; cbn in *.
  - reflexivity.
  - now destruct (Hnr code).
  - reflexivity.
Qed.

Lemma on_message_logs fmt message data :
  forallb is_log (fst (_on_message fmt message data)) = true.
Proof.
  unfold _on_message, try_.
  pose proof (interpret_logs fmt message) as Hl.
  destruct (interpret fmt message) as [t [[]|code|e]]; cbn in *; try assumption.
  rewrite forallb_app, Hl. reflexivity.
Qed.

Lemma on_message_caught fmt message data e :
  snd (interpret fmt message) = Raise e ->
  fst (_on_message fmt message data) =
    fst (interpret fmt message)
    ++ [EvLog ERROR [Lit "解析 JS 消息失败: "; FStr (str_exn e)]].
Proof.
  unfold _on_message, try_.
  destruct (interpret fmt message) as [t c]; cbn.
  intros ->. reflexivity.
Qed.

(** C8.  The sink never raises, whatever it is called with and whatever
    formatting its values does.  It dispatches on the ["type"] field: a
    ["send"] message logs the text of its payload; an ["error"] message logs
    its description and, when it has a stack, the stack as a second entry; a
    dict of any other kind is logged by its own text; and whenever
    interpreting the message raises (a message without [get], a description
    or stack that is not a str, a payload or message whose formatting
    raises), the exception is caught and logged as a parse failure. *)
Theorem on_message_never_raises (fmt : formatter) (message data : pyval) :
  snd (_on_message fmt message data) = Normal tt
  /\ (forall kvs text,
        message = PDict kvs ->
        dict_get "type" kvs = PStr "send" ->
        fmt (dict_get "payload" kvs) = Ok text ->
        fst (_on_message fmt message data) =
          [EvLog INFO [Lit "[JS send] "; FStr text]])
  /\ (forall kvs d,
        message = PDict kvs ->
        dict_get "type" kvs = PStr "error" ->
        py_or (dict_get "description" kvs) (PStr "") = PStr d ->
        (truthy (dict_get "stack" kvs) = false ->
         fst (_on_message fmt message data) =
           [EvLog ERROR [Lit ("[JS error] " ++ d)%string]])
        /\ (forall st,
              dict_get "stack" kvs = PStr st -> st <> "" ->
              fst (_on_message fmt message data) =
                [EvLog ERROR [Lit ("[JS error] " ++ d)%string];
                 EvLog ERROR [Lit ("[JS stack]" ++ nl ++ st)%string]]))
  /\ (forall kvs text,
        message = PDict kvs ->
        eq_str (dict_get "type" kvs) "send" = false ->
        eq_str (dict_get "type" kvs) "error" = false ->
        fmt message = Ok text ->
        fst (_on_message fmt message data) =
          [EvLog INFO [Lit "[JS message] "; FStr text]])
  /\ (forall kvs e,
        message = PDict kvs ->
        dict_get "type" kvs = PStr "send" ->
        fmt (dict_get "payload" kvs) = Err e ->
        fst (_on_message fmt message data) =
          [EvLog ERROR [Lit "解析 JS 消息失败: "; FStr (str_exn e)]])
  /\ (forall e,
        snd (interpret fmt message) = Raise e ->
        fst (_on_message fmt message data) =
          fst (interpret fmt message)
          ++ [EvLog ERROR [Lit "解析 JS 消息失败: "; FStr (str_exn e)]]).
Proof.
  split; [apply on_message_normal|].
  split; [|split; [|split; [|split]]].
  - intros kvs text -> Ht Hf.
    unfold _on_message, interpret. cbn. rewrite Ht. cbn. rewrite Hf. reflexivity.
  - intros kvs d -> Ht Hd.
    unfold _on_message, interpret. cbn. rewrite Ht. cbn. rewrite Hd. cbn.
    split.
    + intros ->. reflexivity.
    + intros st -> Hne. cbn.
      destruct (String.eqb_spec st ""); [contradiction|]. reflexivity.
  - intros kvs text -> Hs He Hf.
    unfold _on_message, interpret. cbn. rewrite Hs, He, Hf. reflexivity.
  - intros kvs e -> Ht Hf.
    unfold _on_message, interpret. cbn. rewrite Ht. cbn. rewrite Hf. reflexivity.
  - apply on_message_caught.
Qed.

(** The witness: an ["error"] message with a description and a stack gives
    the two log entries, a message that is not a dict gives the parse
    failure, and so does a ["send"] message whose payload is an integer of
    5001 digits. *)
Lemma on_message_never_raises_witness :
  fst (_on_message example_format
         (PDict [("type", PStr "error"); ("description", PStr "boom");
                 ("stack", PStr "at f")]) PNone)
  = [EvLog ERROR [Lit "[JS error] boom"];
     EvLog ERROR [Lit ("[JS stack]" ++ nl ++ "at f")%string]]
  /\ fst (_on_message example_format (PList []) PNone)
     = [EvLog ERROR [Lit "解析 JS 消息失败: ";
                     FStr "'list' object has no attribute 'get'"]]
  /\ fst (_on_message example_format
            (PDict [("type", PStr "send"); ("payload", PInt (10 ^ 5000))])
            PNone)
     = [EvLog ERROR
          [Lit "解析 JS 消息失败: ";
           FStr "Exceeds the limit (4300 digits) for integer string conversion; use sys.set_int_max_str_digits() to increase the limit"]].
Proof.
  split; [|split].
  - destruct (on_message_never_raises example_format
                (PDict [("type", PStr "error"); ("description", PStr "boom");
                        ("stack", PStr "at f")]) PNone)
      as (_ & _ & H & _).
    destruct (H _ "boom" eq_refl eq_refl eq_refl) as [_ H'].
    apply (H' "at f" eq_refl). discriminate.
  - destruct (on_message_never_raises example_format (PList []) PNone)
      as (_ & _ & _ & _ & _ & H).
    apply (H (mk_exn AttributeError "'list' object has no attribute 'get'")).
    reflexivity.
  - destruct (on_message_never_raises example_format
                (PDict [("type", PStr "send"); ("payload", PInt (10 ^ 5000))])
                PNone)
      as (_ & _ & _ & _ & H & _).
    assert (Hf : example_format (PInt (10 ^ 5000)) =
              Err (mk_exn ValueError
                     "Exceeds the limit (4300 digits) for integer string conversion; use sys.set_int_max_str_digits() to increase the limit"))
      by (vm_compute; reflexivity).
    exact (H _ _ eq_refl eq_refl Hf).
Defined.

(** ** Message delivery, the probe and the load block *)

Lemma deliver_normal fmt msgs : snd (deliver fmt msgs) = Normal tt.
Proof.
  induction msgs as [|[message data] rest IH]; [reflexivity|].
  cbn. destruct (deliver fmt rest) as [t c]. cbn in *. assumption.
Qed.

Lemma deliver_logs fmt msgs :
  forallb is_log (fst (deliver fmt msgs)) = true.
Proof.
  induction msgs as [|[message data] rest IH]; [reflexivity|].
  cbn. destruct (deliver fmt rest) as [t c]. cbn in *.
  apply forallb_app_true; [apply on_message_logs | assumption].
Qed.

Lemma deliver_eq fmt msgs :
  deliver fmt msgs = (fst (deliver fmt msgs), Normal tt).
Proof.
  rewrite <- (deliver_normal fmt msgs). now destruct (deliver fmt msgs).
Qed.

Lemma deliver_no_detach fmt msgs :
  count is_detach (fst (deliver fmt msgs)) = 0%nat.
Proof.
  apply count_logs_only; [reflexivity | apply deliver_logs].
Qed.

Section HostFacts.

Variable w : World.

Lemma probe_normal sc : snd (probe_exports w sc) = Normal tt.
Proof.
  unfold probe_exports.
  destruct (exports_sync w sc 0), (exports_sync w sc 1), (getattr_decrypt w sc);
    reflexivity.
Qed.

Lemma probe_no_detach sc : count is_detach (fst (probe_exports w sc)) = 0%nat.
Proof.
  unfold probe_exports.
  destruct (exports_sync w sc 0), (exports_sync w sc 1), (getattr_decrypt w sc);
    reflexivity.
Qed.

Lemma probe_eq sc : probe_exports w sc = (fst (probe_exports w sc), Normal tt).
Proof.
  rewrite <- (probe_normal sc). now destruct (probe_exports w sc).
Qed.

Lemma load_script_no_detach s js_path :
  count is_detach (fst (load_script w s js_path)) = 0%nat.
Proof.
  unfold load_script.
  destruct (open_ w js_path); [|reflexivity].
  destruct (f_read w) as [raw|]; [|reflexivity].
  cbn.
  destruct (create_script w s _) as [sc|]; [|reflexivity].
  cbn.
  destruct (script_on w sc); [|reflexivity].
  cbn.
  rewrite (deliver_eq (py_format w) (fst (script_load w sc))). cbn.
  destruct (snd (script_load w sc)); cbn;
    rewrite app_nil_r; apply deliver_no_detach.
Qed.

Lemma load_script_no_return s js_path code :
  snd (load_script w s js_path) <> Return_ code.
Proof.
  unfold load_script.
  destruct (open_ w js_path); [|discriminate].
  destruct (f_read w) as [raw|]; [|discriminate].
  cbn.
  destruct (create_script w s _) as [sc|]; [|discriminate].
  cbn.
  destruct (script_on w sc); [|discriminate].
  cbn.
  rewrite (deliver_eq (py_format w) (fst (script_load w sc))). cbn.
  destruct (snd (script_load w sc)); discriminate.
Qed.

(** The load block raises exactly when one of its calls does. *)
Lemma load_script_raises s js_path e :
  snd (load_script w s js_path) = Raise e <->
  open_ w js_path = Err e
  \/ (open_ w js_path = Ok tt /\
      (f_read w = Err e
       \/ exists raw, f_read w = Ok raw /\
          let source := wrapped_js (datetime_now_isoformat w) raw in
          (create_script w s source = Err e
           \/ exists sc, create_script w s source = Ok sc /\
              (script_on w sc = Err e
               \/ (script_on w sc = Ok tt /\
                   snd (script_load w sc) = Err e))))).
Proof.
  unfold load_script.
  destruct (open_ w js_path) as [[]|e0]; cbn.
  2:{ split.
      - intros [= ->]. now left.
      - intros [[= ->]|[[=] _]]. reflexivity. }
  destruct (f_read w) as [raw|e1]; cbn.
  2:{ split.
      - intros [= ->]. right. split; [reflexivity|]. now left.
      - intros [[=]|[_ [[= ->]|(raw & [=] & _)]]]. reflexivity. }
  destruct (create_script w s _) as [sc|e2] eqn:Ec; cbn.
  2:{ split.
      - intros [= ->]. right. split; [reflexivity|]. right.
        exists raw. split; [reflexivity|]. cbn. left. assumption.
      - intros [[=]|[_ [[=]|(raw' & [= <-] & H)]]]. cbn in H.
        rewrite Ec in H.
        destruct H as [[= ->]|(sc & [=] & _)]. reflexivity. }
  destruct (script_on w sc) as [[]|e3] eqn:Eo; cbn.
  2:{ split.
      - intros [= ->]. right. split; [reflexivity|]. right.
        exists raw. split; [reflexivity|]. cbn. right.
        exists sc. split; [assumption|]. now left.
      - intros [[=]|[_ [[=]|(raw' & [= <-] & H)]]]. cbn in H.
        rewrite Ec in H.
        destruct H as [[=]|(sc' & [= <-] & H)].
        rewrite Eo in H.
        destruct H as [[= ->]|[[=] _]]. reflexivity. }
  rewrite (deliver_eq (py_format w) (fst (script_load w sc))). cbn.
  split.
  - intros H. right. split; [reflexivity|]. right.
    exists raw. split; [reflexivity|]. cbn. right.
    exists sc. split; [assumption|]. right. split; [assumption|].
    destruct (snd (script_load w sc)); [discriminate|].
    now injection H as ->.
  - intros [[=]|[_ [[=]|(raw' & [= <-] & H)]]]. cbn in H.
    rewrite Ec in H.
    destruct H as [[=]|(sc' & [= <-] & H)].
    rewrite Eo in H.
    destruct H as [[=]|[_ ->]]. reflexivity.
Qed.

(** ** The shape of a run once the session exists *)

Lemma run_diag_attached process_name js_path wait_seconds s :
  os_path_exists w js_path = true ->
  frida_attach w process_name = Ok s ->
  run_diag w process_name js_path wait_seconds =
    match load_script w s js_path with
    | (t, Raise e) =>
        ([EvExists js_path; EvAttach process_name] ++ t
         ++ [EvLog ERROR [Lit "加载/运行脚本失败: "; FStr (str_exn e)];
             EvDetach s],
         Return_ 2)
    | (t, Return_ code) =>
        ([EvExists js_path; EvAttach process_name] ++ t, Return_ code)
    | (t, Normal sc) =>
        match sleep_error w wait_seconds with
        | Some e =>
            ([EvExists js_path; EvAttach process_name] ++ t
             ++ fst (probe_exports w sc)
             ++ [EvLog INFO [Lit "诊断模式等待 "; FVal (PFloat wait_seconds);
                             Lit " 秒收集 JS 消息..."];
                 EvSleep wait_seconds],
             Raise e)
        | None =>
            ([EvExists js_path; EvAttach process_name] ++ t
             ++ fst (probe_exports w sc)
             ++ [EvLog INFO [Lit "诊断模式等待 "; FVal (PFloat wait_seconds);
                             Lit " 秒收集 JS 消息..."];
                 EvSleep wait_seconds]
             ++ fst (deliver (py_format w) (sleep_messages w))
             ++ [EvDetach s;
                 EvLog INFO [Lit "诊断结束。请把控制台输出（尤其是 [JS error]/[JS send] stage=fatal/exports）发我。"]],
             Return_ 0)
        end
    end.
Proof.
  intros Hex Hat.
  unfold run_diag. rewrite Hex, Hat. cbn.
  destruct (load_script w s js_path) as [t [sc|code|e]]; cbn.
  - rewrite (probe_eq sc). cbn.
    unfold time_sleep, float.
    destruct (sleep_error w wait_seconds) as [e|]; cbn.
    + reflexivity.
    + rewrite (deliver_eq (py_format w) (sleep_messages w)). cbn.
      destruct (session_detach w s); cbn;
        repeat (rewrite <- app_assoc; cbn); reflexivity.
  - reflexivity.
  - destruct (session_detach w s); reflexivity.
Qed.

End HostFacts.

(** ** Missing script file *)

Lemma run_diag_missing w process_name js_path wait_seconds :
  os_path_exists w js_path = false ->
  run_diag w process_name js_path wait_seconds =
    ([EvExists js_path;
      EvLog ERROR [Lit "找不到脚本文件: "; FStr (os_path_abspath w js_path)]],
     Return_ 2).
Proof.
  intros Hex. unfold run_diag. rewrite Hex. reflexivity.
Qed.

(** C2.  When the script file does not exist, [run_diag] logs one error,
    returns 2 and never calls attach. *)
Theorem missing_script_returns_2 w process_name js_path wait_seconds :
  os_path_exists w js_path = false ->
  run_diag w process_name js_path wait_seconds =
    ([EvExists js_path;
      EvLog ERROR [Lit "找不到脚本文件: "; FStr (os_path_abspath w js_path)]],
     Return_ 2)
  /\ count is_attach (fst (run_diag w process_name js_path wait_seconds)) = 0%nat.
Proof.
  intros Hex.
  rewrite (run_diag_missing _ _ _ _ Hex). split; reflexivity.
Qed.

Lemma missing_script_returns_2_witness :
  snd (run_diag (example_world false (Ok (Session 1)) (Ok "")) "QQMusic.exe"
         "hook_qq_music.js" three_seconds) = Return_ 2
  /\ count is_attach
       (fst (run_diag (example_world false (Ok (Session 1)) (Ok ""))
               "QQMusic.exe" "hook_qq_music.js" three_seconds)) = 0%nat.
Proof.
  destruct (missing_script_returns_2
              (example_world false (Ok (Session 1)) (Ok ""))
              "QQMusic.exe" "hook_qq_music.js" three_seconds eq_refl)
    as [Hrun Hcount].
  split; [rewrite Hrun; reflexivity | exact Hcount].
Defined.

(** ** Attach failures *)

Lemma run_diag_attach_failed w process_name js_path wait_seconds e :
  os_path_exists w js_path = true ->
  frida_attach w process_name = Err e ->
  run_diag w process_name js_path wait_seconds =
    ([EvExists js_path; EvAttach process_name;
      EvLog ERROR
        (if is_ProcessNotFoundError e
         then [Lit "未找到进程 "; FStr process_name;
               Lit "，请先启动目标程序后再运行 --diag"]
         else [Lit "attach 失败: "; FStr (str_exn e)])],
     Return_ 2).
Proof.
  intros Hex Hat.
  unfold run_diag. rewrite Hex, Hat. cbn.
  destruct (is_ProcessNotFoundError e); reflexivity.
Qed.

(** C3.  When attach raises, [run_diag] returns 2 and logs one error; the
    text logged for a process-not-found error differs from the text logged
    for any other attach error, whatever the process names and the
    exceptions' own texts are. *)
Theorem attach_failure_returns_2 w process_name js_path wait_seconds e :
  os_path_exists w js_path = true ->
  frida_attach w process_name = Err e ->
  snd (run_diag w process_name js_path wait_seconds) = Return_ 2
  /\ exists msg,
       error_logs (fst (run_diag w process_name js_path wait_seconds)) = [msg]
       /\ forall w' process_name' js_path' wait_seconds' e' msg' fmt,
            os_path_exists w' js_path' = true ->
            frida_attach w' process_name' = Err e' ->
            is_ProcessNotFoundError e = true ->
            is_ProcessNotFoundError e' = false ->
            error_logs (fst (run_diag w' process_name' js_path' wait_seconds'))
              = [msg'] ->
            render fmt msg <> render fmt msg'.
Proof.
  intros Hex Hat.
  rewrite (run_diag_attach_failed _ _ _ _ _ Hex Hat).
  split; [reflexivity|].
  eexists. split; [reflexivity|].
  intros w' p' js' wait' e' msg' fmt Hex' Hat' Hpnf Hother.
  rewrite (run_diag_attach_failed _ _ _ _ _ Hex' Hat'), Hpnf, Hother.
  cbn. intros [= <-]. cbn. discriminate.
Qed.

Lemma attach_failure_returns_2_witness :
  snd (run_diag
         (example_world true (Err (mk_exn ProcessNotFoundError "no process"))
            (Ok ""))
         "QQMusic.exe" "hook_qq_music.js" three_seconds) = Return_ 2
  /\ render (fun _ => ""%string)
       [Lit "未找到进程 "; FStr "QQMusic.exe";
        Lit "，请先启动目标程序后再运行 --diag"]
     <> render (fun _ => ""%string) [Lit "attach 失败: "; FStr "access denied"].
Proof.
  destruct (attach_failure_returns_2
              (example_world true
                 (Err (mk_exn ProcessNotFoundError "no process")) (Ok ""))
              "QQMusic.exe" "hook_qq_music.js" three_seconds
              (mk_exn ProcessNotFoundError "no process") eq_refl eq_refl)
    as [Hcode (msg & Hmsg & Hdiff)].
  split; [exact Hcode|].
  injection Hmsg as <-.
  apply (Hdiff
           (example_world true
              (Err (mk_exn (OtherException "PermissionDeniedError")
                      "access denied")) (Ok ""))
           "QQMusic.exe" "hook_qq_music.js" three_seconds
           (mk_exn (OtherException "PermissionDeniedError") "access denied"));
    reflexivity.
Defined.

(** ** Load failures *)

(** C4.  When attach succeeds and the load block raises (by
    [load_script_raises]: when opening or reading the file, creating the
    script, registering the sink or loading raises), [run_diag] logs the
    error, calls detach once, on the session that attach returned, and
    returns 2; the outcome of that detach is ignored. *)
Theorem load_failure_detaches w process_name js_path wait_seconds s e :
  os_path_exists w js_path = true ->
  frida_attach w process_name = Ok s ->
  snd (load_script w s js_path) = Raise e ->
  snd (run_diag w process_name js_path wait_seconds) = Return_ 2
  /\ fst (run_diag w process_name js_path wait_seconds) =
       [EvExists js_path; EvAttach process_name]
       ++ fst (load_script w s js_path)
       ++ [EvLog ERROR [Lit "加载/运行脚本失败: "; FStr (str_exn e)];
           EvDetach s]
  /\ count is_detach (fst (run_diag w process_name js_path wait_seconds)) = 1%nat
  /\ forall d,
       snd (run_diag (with_detach d w) process_name js_path wait_seconds)
       = Return_ 2.
Proof.
  intros Hex Hat Hload.
  assert (Hshape : forall w',
            os_path_exists w' js_path = true ->
            frida_attach w' process_name = Ok s ->
            load_script w' s js_path = load_script w s js_path ->
            run_diag w' process_name js_path wait_seconds =
              ([EvExists js_path; EvAttach process_name]
               ++ fst (load_script w s js_path)
               ++ [EvLog ERROR [Lit "加载/运行脚本失败: "; FStr (str_exn e)];
                   EvDetach s],
               Return_ 2)).
  { intros w' Hex' Hat' Hsame.
    rewrite (run_diag_attached w' _ _ _ _ Hex' Hat'), Hsame.
    destruct (load_script w s js_path) as [t c]. cbn in Hload. subst c.
    reflexivity. }
  rewrite (Hshape w Hex Hat eq_refl).
  repeat split.
  - cbn [fst]. rewrite !count_app, load_script_no_detach. reflexivity.
  - intros d. now rewrite (Hshape (with_detach d w) Hex Hat eq_refl).
Qed.

Lemma load_failure_detaches_witness :
  snd (run_diag
         (example_world true (Ok (Session 1))
            (Err (mk_exn (OtherException "UnicodeDecodeError") "bad byte")))
         "QQMusic.exe" "hook_qq_music.js" three_seconds) = Return_ 2
  /\ count is_detach
       (fst (run_diag
               (example_world true (Ok (Session 1))
                  (Err (mk_exn (OtherException "UnicodeDecodeError") "bad byte")))
               "QQMusic.exe" "hook_qq_music.js" three_seconds)) = 1%nat.
Proof.
  destruct (load_failure_detaches
              (example_world true (Ok (Session 1))
                 (Err (mk_exn (OtherException "UnicodeDecodeError") "bad byte")))
              "QQMusic.exe" "hook_qq_music.js" three_seconds (Session 1)
              (mk_exn (OtherException "UnicodeDecodeError") "bad byte")
              eq_refl eq_refl eq_refl)
    as (Hcode & _ & Hcount & _).
  split; assumption.
Defined.

(** ** Successful load *)

(** C10.  With a negative wait and a successful load, [time.sleep] raises;
    the exception leaves [run_diag], which therefore returns no exit code,
    and the detach after the sleep is not performed. *)
Theorem negative_wait_raises w process_name js_path wait_seconds s sc :
  os_path_exists w js_path = true ->
  frida_attach w process_name = Ok s ->
  snd (load_script w s js_path) = Normal sc ->
  is_negative wait_seconds = true ->
  exists e,
    sleep_error w wait_seconds = Some e
    /\ snd (run_diag w process_name js_path wait_seconds) = Raise e
    /\ (forall code,
          snd (run_diag w process_name js_path wait_seconds) <> Return_ code)
    /\ In (EvSleep wait_seconds)
          (fst (run_diag w process_name js_path wait_seconds))
    /\ count is_detach (fst (run_diag w process_name js_path wait_seconds))
       = 0%nat.
Proof.
  intros Hex Hat Hload Hneg.
  assert (Herr : exists e, sleep_error w wait_seconds = Some e).
  { destruct wait_seconds as [sg|sg| |[|] m ex]; try discriminate Hneg.
    - eexists; reflexivity.
    - cbn. destruct (ns_out_of_range m ex); eexists; reflexivity. }
  destruct Herr as [e He]. exists e.
  rewrite (run_diag_attached w _ _ _ _ Hex Hat).
  destruct (load_script w s js_path) as [t c] eqn:El.
  cbn in Hload. subst c. rewrite He. cbn [fst snd].
  repeat split.
  - discriminate.
  - rewrite !in_app_iff. right. right. right. cbn. auto.
  - pose proof (load_script_no_detach w s js_path) as Hl.
    rewrite El in Hl. cbn [fst] in Hl.
    rewrite !count_app, Hl, probe_no_detach. reflexivity.
Qed.

Lemma negative_wait_raises_witness :
  snd (run_diag happy_world "QQMusic.exe" "hook_qq_music.js" minus_one_second)
  = Raise (mk_exn ValueError "sleep length must be non-negative")
  /\ count is_detach
       (fst (run_diag happy_world "QQMusic.exe" "hook_qq_music.js"
               minus_one_second)) = 0%nat.
Proof.
  destruct (negative_wait_raises happy_world "QQMusic.exe" "hook_qq_music.js"
              minus_one_second (Session 1) (Script 1)
              eq_refl eq_refl eq_refl eq_refl)
    as (e & He & Hraise & _ & _ & Hcount).
  injection He as <-.
  split; assumption.
Defined.

(** C9, as stated, fails: with a successful load and a wait of -1.0 seconds
    the run ends in the [ValueError] of [time.sleep], not in exit code 0. *)
Lemma load_success_not_always_0 :
  ~ (forall w process_name js_path wait_seconds s sc,
       os_path_exists w js_path = true ->
       frida_attach w process_name = Ok s ->
       snd (load_script w s js_path) = Normal sc ->
       snd (run_diag w process_name js_path wait_seconds) = Return_ 0).
Proof.
  intros H.
  specialize (H happy_world "QQMusic.exe" "hook_qq_music.js" minus_one_second
                (Session 1) (Script 1) eq_refl eq_refl eq_refl).
  vm_compute in H. discriminate H.
Qed.

(** C9, amended.  When the load succeeds and [time.sleep] returns,
    [run_diag] returns 0, whatever the injected code reports through the
    message channel and however the host-side probe and the detach end. *)
Theorem load_success_returns_0 w process_name js_path wait_seconds s sc :
  os_path_exists w js_path = true ->
  frida_attach w process_name = Ok s ->
  snd (load_script w s js_path) = Normal sc ->
  sleep_error w wait_seconds = None ->
  snd (run_diag w process_name js_path wait_seconds) = Return_ 0.
Proof.
  intros Hex Hat Hload Hsleep.
  rewrite (run_diag_attached w _ _ _ _ Hex Hat).
  destruct (load_script w s js_path) as [t c].
  cbn in Hload. subst c. rewrite Hsleep. reflexivity.
Qed.

(** The witness: the injected code reports an error during the sleep and
    the detach raises, and the run still returns 0. *)
Lemma load_success_returns_0_witness :
  snd (run_diag
         (with_detach (fun _ => Err (mk_exn (OtherException "InvalidOperationError")
                                       "session is gone"))
            happy_world)
         "QQMusic.exe" "hook_qq_music.js" three_seconds) = Return_ 0.
Proof.
  apply (load_success_returns_0 _ "QQMusic.exe" "hook_qq_music.js"
           three_seconds (Session 1) (Script 1));
    reflexivity.
Defined.

(** ** Detach *)

(** C1, as stated, fails: a run that finds no script file never attaches and
    never detaches. *)
Lemma detach_not_always_once :
  ~ (forall w process_name js_path wait_seconds,
       count is_detach (fst (run_diag w process_name js_path wait_seconds))
       = 1%nat
       /\ forall d,
            snd (run_diag (with_detach d w) process_name js_path wait_seconds)
            = snd (run_diag w process_name js_path wait_seconds)).
Proof.
  intros H.
  destruct (H (example_world false (Ok (Session 1)) (Ok ""))
              "QQMusic.exe" "hook_qq_music.js" three_seconds) as [Hcount _].
  vm_compute in Hcount. discriminate Hcount.
Qed.

(** C1, amended.  A run in which the script file is missing or attach fails
    has no session and does not call detach.  A run in which attach succeeds
    and that either fails to load or gets through the sleep calls detach
    exactly once, on the session attach returned.  In every run the
    completion is the same whatever detach does: its exceptions are
    swallowed. *)
Theorem detach_once_when_attached w process_name js_path wait_seconds :
  (os_path_exists w js_path = false
   \/ (exists e, frida_attach w process_name = Err e) ->
   count is_detach (fst (run_diag w process_name js_path wait_seconds)) = 0%nat)
  /\ (forall s,
        os_path_exists w js_path = true ->
        frida_attach w process_name = Ok s ->
        (exists e, snd (load_script w s js_path) = Raise e)
        \/ ((exists sc, snd (load_script w s js_path) = Normal sc)
            /\ sleep_error w wait_seconds = None) ->
        count is_detach (fst (run_diag w process_name js_path wait_seconds))
        = 1%nat
        /\ In (EvDetach s)
              (fst (run_diag w process_name js_path wait_seconds)))
  /\ (forall d,
        snd (run_diag (with_detach d w) process_name js_path wait_seconds)
        = snd (run_diag w process_name js_path wait_seconds)).
Proof.
  split; [|split].
  - intros [Hex|[e Hat]].
    + rewrite (run_diag_missing _ _ _ _ Hex). reflexivity.
    + destruct (os_path_exists w js_path) eqn:Hex.
      * rewrite (run_diag_attach_failed _ _ _ _ _ Hex Hat). reflexivity.
      * rewrite (run_diag_missing _ _ _ _ Hex). reflexivity.
  - intros s Hex Hat Hrun.
    rewrite (run_diag_attached w _ _ _ _ Hex Hat).
    pose proof (load_script_no_detach w s js_path) as Hl.
    destruct (load_script w s js_path) as [t c]. cbn [fst snd] in *.
    destruct Hrun as [[e ->]|[[sc ->] ->]]; cbn [fst]; split.
    + rewrite !count_app, Hl. reflexivity.
    + rewrite !in_app_iff; cbn; tauto.
    + rewrite !count_app, Hl, probe_no_detach, deliver_no_detach. reflexivity.
    + rewrite !in_app_iff; cbn; tauto.
  - intros d.
    destruct (os_path_exists w js_path) eqn:Hex.
    + destruct (frida_attach w process_name) as [s|e] eqn:Hat.
      * rewrite (run_diag_attached w _ _ _ _ Hex Hat).
        rewrite (run_diag_attached (with_detach d w) _ _ _ s Hex Hat).
        change (load_script (with_detach d w) s js_path)
          with (load_script w s js_path).
        change (sleep_error (with_detach d w) wait_seconds)
          with (sleep_error w wait_seconds).
        destruct (load_script w s js_path) as [t [sc|code|e]];
          [destruct (sleep_error w wait_seconds)|..]; reflexivity.
      * rewrite (run_diag_attach_failed w _ _ _ _ Hex Hat).
        rewrite (run_diag_attach_failed (with_detach d w) _ _ _ e Hex Hat).
        reflexivity.
    + rewrite (run_diag_missing w _ _ _ Hex).
      rewrite (run_diag_missing (with_detach d w) _ _ _ Hex).
      reflexivity.
Qed.

Lemma detach_once_when_attached_witness :
  count is_detach
    (fst (run_diag happy_world "QQMusic.exe" "hook_qq_music.js" three_seconds))
  = 1%nat
  /\ count is_detach
       (fst (run_diag (example_world false (Ok (Session 1)) (Ok ""))
               "QQMusic.exe" "hook_qq_music.js" three_seconds))
     = 0%nat.
Proof.
  split.
  - destruct (detach_once_when_attached happy_world "QQMusic.exe"
                "hook_qq_music.js" three_seconds) as (_ & H & _).
    assert (Hload : snd (load_script happy_world (Session 1) "hook_qq_music.js")
                    = Normal (Script 1)) by (vm_compute; reflexivity).
    destruct (H (Session 1) eq_refl eq_refl
                (or_intror (conj (ex_intro _ (Script 1) Hload) eq_refl)))
      as [Hcount _].
    exact Hcount.
  - destruct (detach_once_when_attached
                (example_world false (Ok (Session 1)) (Ok ""))
                "QQMusic.exe" "hook_qq_music.js" three_seconds) as (H & _ & _).
    apply H. left. reflexivity.
Defined.

End PyFacts.

Module JSFacts.

Import JS.
Local Open Scope js_scope.
Local Open Scope list_scope.

(** ** The export check *)











Example check_exports_reports :
  check_exports sample_engine (rpc_after registering_body)
  = ([Sent Wrapper (exports_msg (JBool true) (JArray [JStr "decrypt"]))],
     Val tt).
Proof. reflexivity. Qed.

Example check_exports_catches :
  check_exports sample_engine (rpc_after shadowing_body)
  = ([Sent Wrapper
        (exports_error_msg "TypeError: cannot read properties of null")],
     Val tt).
Proof. reflexivity. Qed.

(** ** The wrapper *)



Lemma get_prop_truthy engine v p :
  to_boolean v = true -> get_prop engine v p = ret (read_prop v p).
Proof.
  destruct v; (discriminate || reflexivity).
Qed.




End JSFacts.

Module RunFacts.

Import Py Cli PyFacts.
Local Open Scope py_scope.
Local Open Scope list_scope.

(** ** How a run can end *)

(** X1.  [run_diag] ends in one of three ways only: it returns 0, it returns
    2, or the exception of [time.sleep] escapes.  It never falls off its end
    and no exception of the runtime, of the file system or of the sink gets
    out of it. *)
Theorem run_diag_completions w process_name js_path wait_seconds :
  snd (run_diag w process_name js_path wait_seconds) = Return_ 0
  \/ snd (run_diag w process_name js_path wait_seconds) = Return_ 2
  \/ exists e,
       snd (run_diag w process_name js_path wait_seconds) = Raise e
       /\ sleep_error w wait_seconds = Some e.
Proof.
  destruct (os_path_exists w js_path) eqn:Hex.
  - destruct (frida_attach w process_name) as [s|e] eqn:Hat.
    + rewrite (run_diag_attached w _ _ _ _ Hex Hat).
      pose proof (load_script_no_return w s js_path) as Hnr.
      destruct (load_script w s js_path) as [t [sc|code|e]]; cbn in Hnr.
      * destruct (sleep_error w wait_seconds) as [e|].
        -- right. right. exists e. split; reflexivity.
        -- left. reflexivity.
      * now destruct (Hnr code).
      * right. left. reflexivity.
    + rewrite (run_diag_attach_failed w _ _ _ _ Hex Hat). right. left. reflexivity.
  - rewrite (run_diag_missing w _ _ _ Hex). right. left. reflexivity.
Qed.

(** X2.  [run_diag] returns 0 exactly when the script file exists, attach
    and the load block succeed and [time.sleep] returns; it returns
    2 exactly when the file is missing, attach raises or the load block
    raises. *)
Theorem run_diag_exit_codes w process_name js_path wait_seconds :
  (snd (run_diag w process_name js_path wait_seconds) = Return_ 0
   <-> os_path_exists w js_path = true
       /\ exists s sc,
            frida_attach w process_name = Ok s
            /\ snd (load_script w s js_path) = Normal sc
            /\ sleep_error w wait_seconds = None)
  /\ (snd (run_diag w process_name js_path wait_seconds) = Return_ 2
      <-> os_path_exists w js_path = false
          \/ (os_path_exists w js_path = true
              /\ ((exists e, frida_attach w process_name = Err e)
                  \/ exists s e,
                       frida_attach w process_name = Ok s
                       /\ snd (load_script w s js_path) = Raise e))).
Proof.
  destruct (os_path_exists w js_path) eqn:Hex.
  - destruct (frida_attach w process_name) as [s|e] eqn:Hat.
    + rewrite (run_diag_attached w _ _ _ _ Hex Hat).
      pose proof (load_script_no_return w s js_path) as Hnr.
      destruct (load_script w s js_path) as [t [sc|code|e]] eqn:El; cbn in Hnr.
      * destruct (sleep_error w wait_seconds) as [e|] eqn:Hs; cbn [snd]; split; split.
        -- discriminate.
        -- intros (_ & s' & sc' & _ & _ & [=]).
        -- discriminate.
        -- intros [[=]|(_ & [(e' & [=])|(s' & e' & [= <-] & Hl)])].
           rewrite El in Hl. discriminate Hl.
        -- intros _. split; [reflexivity|]. exists s, sc.
           rewrite El. repeat split.
        -- reflexivity.
        -- discriminate.
        -- intros [[=]|(_ & [(e' & [=])|(s' & e' & [= <-] & Hl)])].
           rewrite El in Hl. discriminate Hl.
      * now destruct (Hnr code).
      * cbn [snd]. split; split.
        -- discriminate.
        -- intros (_ & s' & sc' & [= <-] & Hl & _).
           rewrite El in Hl. discriminate Hl.
        -- intros _. right. split; [reflexivity|]. right. exists s, e.
           rewrite El. split; reflexivity.
        -- reflexivity.
    + rewrite (run_diag_attach_failed w _ _ _ _ Hex Hat). cbn [snd]. split; split.
      * discriminate.
      * intros (_ & s' & sc' & [=] & _).
      * intros _. right. split; [reflexivity|]. left. exists e. reflexivity.
      * reflexivity.
  - rewrite (run_diag_missing w _ _ _ Hex). cbn [snd]. split; split.
    + discriminate.
    + intros ([=] & _).
    + intros _. left. reflexivity.
    + reflexivity.
Qed.

Lemma run_diag_exit_codes_witness :
  snd (run_diag happy_world "QQMusic.exe" "hook_qq_music.js" three_seconds)
  = Return_ 0.
Proof.
  assert (Hload : snd (load_script happy_world (Session 1) "hook_qq_music.js")
                  = Normal (Script 1)) by (vm_compute; reflexivity).
  destruct (run_diag_exit_codes happy_world "QQMusic.exe" "hook_qq_music.js"
              three_seconds) as [[_ H] _].
  apply H. split; [reflexivity|].
  exists (Session 1), (Script 1).
  split; [reflexivity | split; [exact Hload | reflexivity]].
Defined.

(** A wait that passes the argument checks can still be refused by the
    system's sleep; the run then ends in that exception, without a detach. *)
Example long_wait_raises :
  snd (run_diag
         (with_sleep (fun _ => Err (mk_exn (OtherException "OSError")
                                      "[Errno 22] Invalid argument"))
            happy_world)
         "QQMusic.exe" "hook_qq_music.js" long_wait)
  = Raise (mk_exn (OtherException "OSError") "[Errno 22] Invalid argument")
  /\ count is_detach
       (fst (run_diag
               (with_sleep (fun _ => Err (mk_exn (OtherException "OSError")
                                            "[Errno 22] Invalid argument"))
                  happy_world)
               "QQMusic.exe" "hook_qq_music.js" long_wait))
     = 0%nat.
Proof. split; vm_compute; reflexivity. Qed.

(** ** What happens around the detach *)

Lemma no_detach_no_split (t t1 t2 : trace) s :
  count is_detach t = 0%nat -> t <> t1 ++ EvDetach s :: t2.
Proof.
  intros Hc ->. rewrite count_app in Hc. cbn in Hc. lia.
Qed.

Lemma split_at_detach (pre post t1 t2 : trace) s s' :
  count is_detach pre = 0%nat ->
  pre ++ EvDetach s :: post = t1 ++ EvDetach s' :: t2 ->
  count is_detach post = 0%nat ->
  t1 = pre /\ s' = s /\ t2 = post.
Proof.
  revert t1. induction pre as [|ev pre IH]; intros t1 Hpre Heq Hpost.
  - destruct t1 as [|ev1 t1]; cbn in Heq.
    + injection Heq as <- <-. repeat split.
    + injection Heq as <- ->.
      exfalso. revert Hpost. rewrite count_app. cbn. lia.
  - destruct t1 as [|ev1 t1]; cbn in Heq.
    + injection Heq as -> _. cbn in Hpre. discriminate Hpre.
    + injection Heq as <- Heq.
      assert (Hpre' : count is_detach pre = 0%nat).
      { unfold count in *. cbn in Hpre. destruct (is_detach ev); [discriminate|assumption]. }
      destruct (IH t1 Hpre' Heq Hpost) as (-> & -> & ->). repeat split.
Qed.

(** X3.  Wherever a detach stands in the trace of a run, it is the detach of
    the session that attach returned, no detach comes before it, and after
    it the run makes no call at all: at most one log line follows. *)
Theorem nothing_after_detach w process_name js_path wait_seconds t1 s t2 :
  fst (run_diag w process_name js_path wait_seconds) = t1 ++ EvDetach s :: t2 ->
  frida_attach w process_name = Ok s
  /\ count is_detach t1 = 0%nat
  /\ forallb is_log t2 = true
  /\ (length t2 <= 1)%nat.
Proof.
  intros Hsplit.
  destruct (os_path_exists w js_path) eqn:Hex.
  - destruct (frida_attach w process_name) as [s0|e] eqn:Hat.
    + rewrite (run_diag_attached w _ _ _ _ Hex Hat) in Hsplit.
      pose proof (load_script_no_detach w s0 js_path) as Hl.
      destruct (load_script w s0 js_path) as [t [sc|code|e]]; cbn [fst] in Hl.
      * destruct (sleep_error w wait_seconds) as [e|]; cbn [fst] in Hsplit.
        -- exfalso. revert Hsplit. apply no_detach_no_split.
           rewrite !count_app, Hl, probe_no_detach. reflexivity.
        -- rewrite !app_assoc in Hsplit.
           change (?a ++ [EvDetach s0; ?x]) with (a ++ EvDetach s0 :: [x])
             in Hsplit.
           apply split_at_detach in Hsplit as (-> & -> & ->).
           ++ repeat split.
              ** rewrite !count_app, Hl, probe_no_detach, deliver_no_detach.
                 reflexivity.
              ** cbn. lia.
           ++ rewrite !count_app, Hl, probe_no_detach, deliver_no_detach.
              reflexivity.
           ++ reflexivity.
      * exfalso. revert Hsplit. apply no_detach_no_split.
        cbn [fst]. rewrite !count_app, Hl. reflexivity.
      * cbn [fst] in Hsplit. rewrite !app_assoc in Hsplit.
        change (?a ++ [?x; EvDetach s0]) with (a ++ x :: EvDetach s0 :: [])
          in Hsplit.
        replace ((([EvExists js_path; EvAttach process_name] ++ t)
                  ++ EvLog ERROR [Lit "加载/运行脚本失败: "; FStr (str_exn e)]
                     :: EvDetach s0 :: []))
          with ((([EvExists js_path; EvAttach process_name] ++ t)
                 ++ [EvLog ERROR [Lit "加载/运行脚本失败: "; FStr (str_exn e)]])
                ++ EvDetach s0 :: []) in Hsplit
          by (rewrite <- !app_assoc; reflexivity).
        apply split_at_detach in Hsplit as (-> & -> & ->).
        -- repeat split.
           ++ rewrite !count_app, Hl. reflexivity.
           ++ cbn. lia.
        -- rewrite !count_app, Hl. reflexivity.
        -- reflexivity.
    + exfalso. revert Hsplit.
      rewrite (run_diag_attach_failed w _ _ _ _ Hex Hat).
      apply no_detach_no_split. reflexivity.
  - exfalso. revert Hsplit.
    rewrite (run_diag_missing w _ _ _ Hex).
    apply no_detach_no_split. reflexivity.
Qed.

Lemma nothing_after_detach_witness :
  exists t1 t2,
    fst (run_diag happy_world "QQMusic.exe" "hook_qq_music.js" three_seconds)
    = t1 ++ EvDetach (Session 1) :: t2
    /\ forallb is_log t2 = true.
Proof.
  eexists. eexists.
  assert (Hsplit :
    fst (run_diag happy_world "QQMusic.exe" "hook_qq_music.js" three_seconds)
    = firstn 17 (fst (run_diag happy_world "QQMusic.exe" "hook_qq_music.js"
                        three_seconds))
      ++ EvDetach (Session 1)
         :: skipn 18 (fst (run_diag happy_world "QQMusic.exe"
                             "hook_qq_music.js" three_seconds)))
    by (vm_compute; reflexivity).
  split; [exact Hsplit|].
  destruct (nothing_after_detach happy_world "QQMusic.exe" "hook_qq_music.js"
              three_seconds _ _ _ Hsplit) as (_ & _ & Hlogs & _).
  exact Hlogs.
Defined.

(** ** The load block *)

(** X4.  Whenever the load block gets as far as loading a script, it has
    done so in this order: the file was opened, read and closed, the script
    was created on the attached session from the wrapped text of exactly what
    was read, the sink was registered, and only then was the script loaded;
    what follows the load are log lines of the sink. *)
Theorem load_script_order w s js_path sc :
  In (EvLoad sc) (fst (load_script w s js_path)) ->
  exists raw_js logs,
    f_read w = Ok raw_js
    /\ create_script w s (wrapped_js (datetime_now_isoformat w) raw_js) = Ok sc
    /\ fst (load_script w s js_path) =
         [EvOpen js_path; EvRead; EvClose; EvNow;
          EvCreateScript s (wrapped_js (datetime_now_isoformat w) raw_js);
          EvOn sc; EvLoad sc] ++ logs
    /\ forallb is_log logs = true.
Proof.
  unfold load_script.
  destruct (open_ w js_path) as [[]|e0].
  2:{ cbn. intros [[=]|[]]. }
  destruct (f_read w) as [raw|e1].
  2:{ cbn. intros [[=]|[[=]|[[=]|[]]]]. }
  cbn.
  destruct (create_script w s _) as [sc'|e2] eqn:Ec.
  2:{ cbn. intros [[=]|[[=]|[[=]|[[=]|[[=]|[]]]]]]. }
  cbn.
  destruct (script_on w sc') as [[]|e3].
  2:{ cbn. intros [[=]|[[=]|[[=]|[[=]|[[=]|[[=]|[]]]]]]]. }
  cbn.
  rewrite (deliver_eq (py_format w) (fst (script_load w sc'))). cbn.
  pose proof (deliver_logs (py_format w) (fst (script_load w sc'))) as Hlogs.
  destruct (snd (script_load w sc')) as [[]|e4]; cbn;
    rewrite app_nil_r; intros Hin.
  all: assert (sc' = sc) as ->
      by (destruct Hin as [[=]|[[=]|[[=]|[[=]|[[=]|[[=]|[Heq|Hin]]]]]]];
          [now injection Heq
          | rewrite forallb_forall in Hlogs; apply Hlogs in Hin;
            discriminate Hin]).
  all: exists raw, (fst (deliver (py_format w) (fst (script_load w sc)))).
  all: repeat split; assumption.
Qed.

Lemma load_script_order_witness :
  exists logs,
    fst (load_script happy_world (Session 1) "hook_qq_music.js") =
      [EvOpen "hook_qq_music.js"; EvRead; EvClose; EvNow;
       EvCreateScript (Session 1)
         (wrapped_js "2024-05-01T12:00:00.000001" "rpc.exports = {};");
       EvOn (Script 1); EvLoad (Script 1)] ++ logs.
Proof.
  assert (Hin : In (EvLoad (Script 1))
                   (fst (load_script happy_world (Session 1) "hook_qq_music.js")))
    by (vm_compute; tauto).
  destruct (load_script_order happy_world (Session 1) "hook_qq_music.js"
              (Script 1) Hin) as (raw & logs & Hraw & _ & Htrace & _).
  injection Hraw as <-.
  exists logs. exact Htrace.
Defined.

(** ** The host-side probe *)

(** X5.  The probe never changes the control flow and never calls the
    export: it completes normally in every world, its only calls are reads
    of [exports_sync] and one [getattr] of the name "decrypt", it logs
    exactly one line, and that line is an error unless all three reads
    succeeded. *)
Theorem probe_is_advisory w sc :
  snd (probe_exports w sc) = Normal tt
  /\ (forall ev,
        In ev (fst (probe_exports w sc)) ->
        ev = EvExportsSync sc \/ ev = EvGetattr sc "decrypt"
        \/ is_log ev = true)
  /\ count is_log (fst (probe_exports w sc)) = 1%nat
  /\ (count is_info (fst (probe_exports w sc)) = 1%nat
      <-> exports_sync w sc 0 = Ok tt
          /\ exports_sync w sc 1 = Ok tt
          /\ getattr_decrypt w sc = Ok tt).
Proof.
  unfold probe_exports.
  destruct (exports_sync w sc 0) as [[]|e0], (exports_sync w sc 1) as [[]|e1],
    (getattr_decrypt w sc) as [[]|e2]; cbn;
    (split; [reflexivity|]);
    (split; [intros ev Hin; repeat (destruct Hin as [<-|Hin]; [tauto|]);
             destruct Hin|]);
    (split; [reflexivity|]);
    (split; [intros H; try discriminate H; repeat split
            | intros (H0 & H1 & H2);
              try discriminate H0; try discriminate H1; try discriminate H2;
              reflexivity]).
Qed.

Lemma probe_is_advisory_witness :
  count is_info (fst (probe_exports happy_world (Script 1))) = 1%nat.
Proof.
  destruct (probe_is_advisory happy_world (Script 1)) as (_ & _ & _ & [_ H]).
  apply H. repeat split.
Defined.

(** ** The sink *)

(** X6.  Every message gets logged: whatever the sink is called with and
    whatever formatting does, it writes one or two log lines and does
    nothing else. *)
Theorem on_message_always_logs (fmt : formatter) (message data : pyval) :
  forallb is_log (fst (_on_message fmt message data)) = true
  /\ (1 <= length (fst (_on_message fmt message data)) <= 2)%nat.
Proof.
  split; [apply on_message_logs|].
  unfold _on_message, interpret.
  destruct message; try (cbn; lia).
  cbn.
  destruct (eq_str _ "send").
  { destruct (fmt _); cbn; lia. }
  destruct (eq_str _ "error").
  2:{ destruct (fmt _); cbn; lia. }
  cbn.
  destruct (py_or _ _); try (cbn; lia).
  cbn.
  destruct (truthy _); [|cbn; lia].
  destruct (dict_get "stack" kvs); cbn; lia.
Qed.

Lemma snd_bind_ret {A B} (a : A) (k : A -> M B) :
  snd (bind (ret a) k) = snd (k a).
Proof.
  unfold bind, ret. now destruct (k a).
Qed.

Lemma eq_str_true v s : eq_str v s = true -> v = PStr s.
Proof.
  destruct v; try discriminate. cbn. intros H.
  apply String.eqb_eq in H. now subst.
Qed.

(** X7.  Interpreting a message raises, and the sink then logs a parse
    failure, in exactly four situations: the message is not a dict; it is a
    "send" message and formatting its payload raises; it is an "error"
    message whose description or stack is present but is not a str; it is a
    dict of any other kind and formatting it raises. *)
Theorem interpret_raises_iff (fmt : formatter) (message : pyval) :
  (exists e, snd (interpret fmt message) = Raise e)
  <-> is_dict message = false
      \/ exists kvs,
           message = PDict kvs
           /\ ((dict_get "type" kvs = PStr "send"
                /\ exists e, fmt (dict_get "payload" kvs) = Err e)
               \/ (dict_get "type" kvs = PStr "error"
                   /\ (text_or_absent (dict_get "description" kvs) = false
                       \/ text_or_absent (dict_get "stack" kvs) = false))
               \/ (eq_str (dict_get "type" kvs) "send" = false
                   /\ eq_str (dict_get "type" kvs) "error" = false
                   /\ exists e, fmt message = Err e)).
Proof.
  destruct message as [| | | | | |kvs];
    try (split; [intros _; left; reflexivity | intros _; eexists; reflexivity]).
  assert (Hno : forall P : Prop,
            (P -> False) ->
            snd (interpret fmt (PDict kvs)) = Normal tt ->
            (exists e, snd (interpret fmt (PDict kvs)) = Raise e)
            <-> is_dict (PDict kvs) = false \/ P).
  { intros P HP Hn. rewrite Hn.
    split; [intros [e [=]] | intros [[=]|H]; now destruct (HP H)]. }
  assert (Hyes : forall (P : Prop) e,
            P ->
            snd (interpret fmt (PDict kvs)) = Raise e ->
            (exists e, snd (interpret fmt (PDict kvs)) = Raise e)
            <-> is_dict (PDict kvs) = false \/ P).
  { intros P e HP Hr. split; [intros _; now right | intros _; now exists e]. }
  unfold text_or_absent.
  destruct (eq_str (dict_get "type" kvs) "send") eqn:Hsend.
  { pose proof (eq_str_true _ _ Hsend) as Hty.
    assert (Hrun : snd (interpret fmt (PDict kvs)) =
              match fmt (dict_get "payload" kvs) with
              | Ok _ => Normal tt
              | Err e => Raise e
              end).
    { unfold interpret, get. rewrite snd_bind_ret, Hsend, snd_bind_ret.
      destruct (fmt (dict_get "payload" kvs)); reflexivity. }
    destruct (fmt (dict_get "payload" kvs)) as [text|e] eqn:Hf.
    - apply Hno; [|exact Hrun].
      intros (kvs' & [= <-] & [(_ & e & He)|[(Ht & _)|(Hs & _)]]).
      + rewrite Hf in He. discriminate He.
      + rewrite Hty in Ht. discriminate Ht.
      + rewrite Hsend in Hs. discriminate Hs.
    - eapply Hyes; [|exact Hrun].
      exists kvs. split; [reflexivity|]. left. split; [exact Hty|].
      exists e. exact Hf. }
  destruct (eq_str (dict_get "type" kvs) "error") eqn:Herr.
  - pose proof (eq_str_true _ _ Herr) as Hty.
    assert (Hrun : snd (interpret fmt (PDict kvs)) =
              snd (line <- str_add "[JS error] "
                             (py_or (dict_get "description" kvs) (PStr "")) ;;
                   logging_error [Lit line] ;;
                   if truthy (dict_get "stack" kvs) then
                     line' <- str_add ("[JS stack]" ++ nl)%string
                                (dict_get "stack" kvs) ;;
                     logging_error [Lit line']
                   else pass)).
    { unfold interpret, get. rewrite snd_bind_ret, Hsend, Herr.
      now rewrite !snd_bind_ret. }
    unfold py_or in Hrun.
    remember (snd (interpret fmt (PDict kvs))) as r eqn:Hr. clear Hr.
    destruct (truthy (dict_get "description" kvs)) eqn:Hd;
      destruct (truthy (dict_get "stack" kvs)) eqn:Hs;
      destruct (dict_get "description" kvs) as [| | | |d| |] eqn:Hdv;
      destruct (dict_get "stack" kvs) as [| | | |st| |] eqn:Hsv;
      try (cbn in Hd; discriminate Hd); try (cbn in Hs; discriminate Hs);
      cbn in Hrun;
      first
        [ apply Hno; [|exact Hrun];
          intros (kvs' & [= <-] & [(Ht & _)|[(_ & [H|H])|(_ & He & _)]]);
          [ rewrite Hty in Ht; discriminate Ht
          | rewrite ?Hdv, ?Hsv in H; rewrite ?Hd, ?Hs in H; discriminate H
          | rewrite ?Hdv, ?Hsv in H; rewrite ?Hd, ?Hs in H; discriminate H
          | rewrite Herr in He; discriminate He ]
        | eapply Hyes; [|exact Hrun];
          exists kvs; split; [reflexivity|]; right; left;
          split; [exact Hty|];
          rewrite Hdv, Hsv; rewrite ?Hd, ?Hs;
          first [left; reflexivity | right; reflexivity] ].
  - assert (Hrun : snd (interpret fmt (PDict kvs)) =
              match fmt (PDict kvs) with
              | Ok _ => Normal tt
              | Err e => Raise e
              end).
    { unfold interpret, get. rewrite snd_bind_ret, Hsend, Herr.
      destruct (fmt (PDict kvs)); reflexivity. }
    destruct (fmt (PDict kvs)) as [text|e] eqn:Hf.
    + apply Hno; [|exact Hrun].
      intros (kvs' & [= <-] & [(Ht & _)|[(Ht & _)|(_ & _ & e & He)]]).
      * rewrite Ht in Hsend. cbn in Hsend. discriminate Hsend.
      * rewrite Ht in Herr. cbn in Herr. discriminate Herr.
      * discriminate He.
    + eapply Hyes; [|exact Hrun].
      exists kvs. split; [reflexivity|]. right. right.
      split; [exact Hsend|]. split; [exact Herr|]. exists e. reflexivity.
Qed.

Lemma interpret_raises_iff_witness :
  exists e,
    snd (interpret example_format
           (PDict [("type", PStr "error"); ("description", PInt 7)]))
    = Raise e.
Proof.
  destruct (interpret_raises_iff example_format
              (PDict [("type", PStr "error"); ("description", PInt 7)]))
    as [_ H].
  apply H. right. eexists. split; [reflexivity|].
  right. left. split; [reflexivity|]. left. reflexivity.
Defined.

(** ** The wrapped text *)

Lemma append_assoc (a b c : string) :
  ((a ++ b) ++ c = a ++ (b ++ c))%string.
Proof.
  induction a as [|ch a IH]; cbn; [reflexivity | now rewrite IH].
Qed.

(** X8.  The wrapped text holds the script body verbatim: for a given
    timestamp it is one fixed text, the body as it was read, and another
    fixed text, and neither of the two depends on the body. *)
Theorem wrapped_js_embeds_body (time : string) :
  exists before after : string,
    forall raw_js, wrapped_js time raw_js = (before ++ raw_js ++ after)%string.
Proof.
  exists (nl ++ lines [
    "        (function() {";
    "          try {";
    "            send({" ++ quoted "stage" ++ ":" ++ quoted "boot" ++ ","
       ++ quoted "time" ++ ":" ++ quoted time ++ ","
       ++ quoted "msg" ++ ":" ++ quoted "js wrapper entered" ++ "});";
    "" ] ++ "            ")%string.
  exists (nl ++ lines [
    "";
    "            // 如果能运行到这里，说明脚本顶层没有崩";
    "            send({" ++ quoted "stage" ++ ":" ++ quoted "boot" ++ ","
       ++ quoted "msg" ++ ":" ++ quoted "js wrapper finished (top-level ok)"
       ++ "});";
    "";
    "            // 尝试在 JS 侧确认 rpc.exports 是否存在 decrypt";
    "            try {";
    "              var hasDecrypt = (typeof rpc !== " ++ quoted "undefined"
       ++ ") && rpc.exports && (typeof rpc.exports.decrypt === "
       ++ quoted "function" ++ ");";
    "              send({" ++ quoted "stage" ++ ":" ++ quoted "exports" ++ ","
       ++ quoted "hasDecrypt" ++ ":hasDecrypt, " ++ quoted "exportKeys"
       ++ ": rpc && rpc.exports ? Object.keys(rpc.exports) : null });";
    "            } catch (e) {";
    "              send({" ++ quoted "stage" ++ ":" ++ quoted "exports" ++ ","
       ++ quoted "error" ++ ": String(e)})";
    "            }";
    "";
    "          } catch (e) {";
    "            // 顶层异常会直接导致 rpc.exports 未注册，这就是你当前症状的最常见根因";
    "            send({" ++ quoted "stage" ++ ":" ++ quoted "fatal" ++ ","
       ++ quoted "error" ++ ": String(e), " ++ quoted "stack"
       ++ ": e && e.stack ? String(e.stack) : null });";
    "            throw e;";
    "          }";
    "        })();" ] ++ "        ")%string.
  intros raw_js.
  unfold wrapped_js, lines, quoted.
  cbn [map String.concat].
  repeat rewrite append_assoc.
  reflexivity.
Qed.

(** ** The entry point *)

(** X9.  Without [--diag] the program configures logging, prints its usage
    and exits with status 0 without running anything.  With [--diag] its
    exit status is the code [run_diag] returned, which is 0 or 2, and the
    only exception that can end the program is the one [time.sleep] raises
    for the given wait. *)
Theorem main_exit_status w args :
  (diag args = false ->
   snd (main w args) = Exit 0
   /\ forallb (fun ev => negb (is_ran ev)) (fst (main w args)) = true)
  /\ (diag args = true ->
      match snd (run_diag w (proc args) (js args) (wait args)) with
      | Return_ code =>
          snd (main w args) = Exit code /\ (code = 0 \/ code = 2)%Z
      | Raise e =>
          snd (main w args) = Uncaught e /\ sleep_error w (wait args) = Some e
      | Normal _ => False
      end).
Proof.
  unfold main. split; intros Hdiag; rewrite Hdiag.
  - split; reflexivity.
  - cbn [snd].
    destruct (os_path_exists w (js args)) eqn:Hex.
    + destruct (frida_attach w (proc args)) as [s|e] eqn:Hat.
      * rewrite (run_diag_attached w _ _ _ _ Hex Hat).
        pose proof (load_script_no_return w s (js args)) as Hnr.
        destruct (load_script w s (js args)) as [t [sc|code|e]]; cbn in Hnr.
        -- destruct (sleep_error w (wait args)) as [e|]; cbn [snd sys_exit].
           ++ split; reflexivity.
           ++ split; [reflexivity | now left].
        -- now destruct (Hnr code).
        -- cbn [snd sys_exit]. split; [reflexivity | now right].
      * rewrite (run_diag_attach_failed w _ _ _ _ Hex Hat). cbn [snd sys_exit].
        split; [reflexivity | now right].
    + rewrite (run_diag_missing w _ _ _ Hex). cbn [snd sys_exit].
      split; [reflexivity | now right].
Qed.

Lemma main_exit_status_witness :
  snd (main happy_world default_args) = Exit 0
  /\ snd (main (example_world false (Ok (Session 1)) (Ok ""))
            {| diag := true; proc := "QQMusic.exe"; js := "hook_qq_music.js";
               wait := three_seconds |}) = Exit 2.
Proof.
  split.
  - destruct (main_exit_status happy_world default_args) as [H _].
    destruct (H eq_refl) as [Hexit _]. exact Hexit.
  - destruct (main_exit_status
                (example_world false (Ok (Session 1)) (Ok ""))
                {| diag := true; proc := "QQMusic.exe";
                   js := "hook_qq_music.js"; wait := three_seconds |})
      as [_ H].
    specialize (H eq_refl). cbn in H. destruct H as [Hexit _]. exact Hexit.
Defined.

(** ** One session per run *)

Lemma load_script_no_attach w s js_path :
  count is_attach (fst (load_script w s js_path)) = 0%nat.
Proof.
  unfold load_script.
  destruct (open_ w js_path); [|reflexivity].
  destruct (f_read w) as [raw|]; [|reflexivity].
  cbn.
  destruct (create_script w s _) as [sc|]; [|reflexivity].
  cbn.
  destruct (script_on w sc); [|reflexivity].
  cbn.
  rewrite (deliver_eq (py_format w) (fst (script_load w sc))). cbn.
  destruct (snd (script_load w sc)); cbn;
    rewrite app_nil_r;
    (apply count_logs_only; [reflexivity | apply deliver_logs]).
Qed.

Lemma probe_no_attach w sc : count is_attach (fst (probe_exports w sc)) = 0%nat.
Proof.
  unfold probe_exports.
  destruct (exports_sync w sc 0), (exports_sync w sc 1), (getattr_decrypt w sc);
    reflexivity.
Qed.

(** X10.  A run attaches at most once, and it never detaches more often than
    it has attached. *)
Theorem one_session_per_run w process_name js_path wait_seconds :
  (count is_detach (fst (run_diag w process_name js_path wait_seconds))
   <= count is_attach (fst (run_diag w process_name js_path wait_seconds)))%nat
  /\ (count is_attach (fst (run_diag w process_name js_path wait_seconds))
      <= 1)%nat.
Proof.
  destruct (os_path_exists w js_path) eqn:Hex.
  - destruct (frida_attach w process_name) as [s|e] eqn:Hat.
    + rewrite (run_diag_attached w _ _ _ _ Hex Hat).
      pose proof (load_script_no_detach w s js_path) as Hd.
      pose proof (load_script_no_attach w s js_path) as Ha.
      assert (Hlogs : count is_attach (fst (deliver (py_format w) (sleep_messages w))) = 0%nat)
        by (apply count_logs_only; [reflexivity | apply deliver_logs]).
      destruct (load_script w s js_path) as [t [sc|code|e]]; cbn [fst] in Hd, Ha.
      * destruct (sleep_error w wait_seconds) as [e|]; cbn [fst];
          rewrite !count_app, ?Hd, ?Ha, ?probe_no_detach, ?probe_no_attach,
            ?deliver_no_detach, ?Hlogs;
          cbn; lia.
      * cbn [fst]. rewrite !count_app, Hd, Ha. cbn. lia.
      * cbn [fst]. rewrite !count_app, Hd, Ha. cbn. lia.
    + rewrite (run_diag_attach_failed w _ _ _ _ Hex Hat). cbn. lia.
  - rewrite (run_diag_missing w _ _ _ Hex). cbn. lia.
Qed.

End RunFacts.

Module WrapperFacts.

Import JS Channel JSFacts.
Local Open Scope js_scope.
Local Open Scope list_scope.

(** ** What travels on the channel *)



(** ** The export check, case by case *)









End WrapperFacts.

Module ScopedFacts.

Import JS Channel Scoped.
Local Open Scope js_scope.
Local Open Scope list_scope.

(** ** The export check *)

Lemma exec_send_val (a : jsval) :
  exec (call_ TheSend (ret a)) = ([Sent Wrapper a], Val tt).
Proof. reflexivity. Qed.

Lemma has_decrypt_unresolvable engine :
  has_decrypt engine Unresolvable = ([], Val (JBool false)).
Proof. reflexivity. Qed.

Lemma has_decrypt_bound engine v :
  nullish v = false ->
  has_decrypt engine (Bound v) =
    ([], Val (if to_boolean (read_prop v exports)
              then JBool (typeof (read_prop (read_prop v exports) decrypt)
                          =? "function")%string
              else read_prop v exports)).
Proof.
  intros Hv.
  assert (Hget : forall p, get_prop engine v p = ([], Val (read_prop v p)))
    by (intros p; destruct v; (discriminate Hv || reflexivity)).
  assert (Htypeof : (typeof v =? "undefined")%string = false)
    by (destruct v; (discriminate Hv || reflexivity)).
  unfold has_decrypt, and_, ident, typeof_ident.
  rewrite Htypeof. cbn [negb bind ret to_boolean app]. rewrite !Hget.
  cbn [negb bind ret to_boolean app].
  destruct (to_boolean (read_prop v exports)) eqn:Hex; [|reflexivity].
  assert (Hget' : get_prop engine (read_prop v exports) decrypt
                  = ([], Val (read_prop (read_prop v exports) decrypt)))
    by (destruct (read_prop v exports); (discriminate Hex || reflexivity)).
  rewrite Hget'. reflexivity.
Qed.

Lemma export_keys_bound engine sc v :
  rpc_after (script_body sc) = Bound v ->
  nullish v = false ->
  export_keys engine sc =
    if to_boolean (read_prop v exports)
    then call_ (Object_keys sc) (ret (read_prop v exports))
    else ([], Val JNull).
Proof.
  intros Hrpc Hv.
  assert (Hget : forall p, get_prop engine v p = ([], Val (read_prop v p)))
    by (intros p; destruct v; (discriminate Hv || reflexivity)).
  unfold export_keys, and_, ident. rewrite Hrpc.
  cbn [bind ret app]. rewrite !Hget. cbn [bind ret app].
  destruct (to_boolean v) eqn:Htv; cbn [bind ret].
  - destruct (to_boolean (read_prop v exports)); [|reflexivity].
    unfold ret.
    now destruct (call_ (Object_keys sc) ([], Val (read_prop v exports))).
  - rewrite Htv.
    assert (Hex : read_prop v exports = JUndefined)
      by (destruct v; first [discriminate Hv | discriminate Htv | reflexivity]).
    rewrite Hex. reflexivity.
Qed.

Lemma call_not_ret f a : snd (call_ f (ret a)) <> Ret.
Proof.
  destruct f as [|[e|] run]; cbn; try discriminate.
  destruct (snd (run a)); discriminate.
Qed.

Section ExportCheck.

Variable engine : Engine.
Variable sc : script.
Hypothesis Hexports : send_exports sc = TheSend.
Hypothesis Herror : send_error sc = TheSend.

Lemma check_reports hd msgs keys :
  has_decrypt engine (rpc_after (script_body sc)) = ([], Val hd) ->
  export_keys engine sc = (msgs, Val keys) ->
  check_exports engine sc =
    (msgs ++ [Sent Wrapper
                (JObject [("stage", JStr "exports"); ("hasDecrypt", hd);
                          ("exportKeys", keys)])],
     Val tt).
Proof.
  intros Hhd Hkeys. unfold check_exports.
  rewrite Hexports, Hhd, Hkeys. cbn. rewrite app_nil_r. reflexivity.
Qed.

Lemma check_catches_first e text :
  has_decrypt engine (rpc_after (script_body sc)) = ([], Throw e) ->
  call_ (String_error sc) (ret e) = ([], Val text) ->
  check_exports engine sc =
    ([Sent Wrapper (JObject [("stage", JStr "exports"); ("error", text)])],
     Val tt).
Proof.
  intros Hhd Htext. unfold check_exports.
  rewrite Herror, Hhd. cbn. rewrite Htext. reflexivity.
Qed.

Lemma check_catches_second hd msgs e text :
  has_decrypt engine (rpc_after (script_body sc)) = ([], Val hd) ->
  export_keys engine sc = (msgs, Throw e) ->
  call_ (String_error sc) (ret e) = ([], Val text) ->
  check_exports engine sc =
    (msgs ++ [Sent Wrapper (JObject [("stage", JStr "exports"); ("error", text)])],
     Val tt).
Proof.
  intros Hhd Hkeys Htext. unfold check_exports.
  rewrite Hexports, Herror, Hhd, Hkeys. cbn. rewrite Htext. cbn.
  reflexivity.
Qed.

End ExportCheck.

Lemma has_decrypt_null engine :
  has_decrypt engine (Bound JNull) = ([], Throw (type_error engine JNull)).
Proof. reflexivity. Qed.

Lemma has_decrypt_undefined engine :
  has_decrypt engine (Bound JUndefined) = ([], Val (JBool false)).
Proof. reflexivity. Qed.

Lemma export_keys_unresolvable engine sc :
  rpc_after (script_body sc) = Unresolvable ->
  export_keys engine sc = ([], Throw (reference_error engine "rpc")).
Proof.
  intros Hrpc. unfold export_keys. rewrite Hrpc. reflexivity.
Qed.

Lemma export_keys_undefined engine sc :
  rpc_after (script_body sc) = Bound JUndefined ->
  export_keys engine sc = ([], Val JNull).
Proof.
  intros Hrpc. unfold export_keys. rewrite Hrpc. reflexivity.
Qed.

Lemma check_exports_completes engine sc :
  send_exports sc = TheSend ->
  send_error sc = TheSend ->
  (forall e, exists text, call_ (String_error sc) (ret e) = ([], Val text)) ->
  snd (check_exports engine sc) = Val tt.
Proof.
  intros Hse Herr Hstring.
  destruct (rpc_after (script_body sc)) as [|v] eqn:Hrpc.
  - destruct (Hstring (reference_error engine "rpc")) as [text Htext].
    rewrite (check_catches_second engine sc Hse Herr _ _ _ _
               ltac:(rewrite Hrpc; apply has_decrypt_unresolvable)
               (export_keys_unresolvable engine sc Hrpc) Htext).
    reflexivity.
  - destruct (nullish v) eqn:Hv.
    + destruct v; try discriminate Hv.
      * rewrite (check_reports engine sc Hse _ _ _
                   ltac:(rewrite Hrpc; apply has_decrypt_undefined)
                   (export_keys_undefined engine sc Hrpc)).
        reflexivity.
      * destruct (Hstring (type_error engine JNull)) as [text Htext].
        rewrite (check_catches_first engine sc Herr _ _
                   ltac:(rewrite Hrpc; apply has_decrypt_null) Htext).
        reflexivity.
    + pose proof (export_keys_bound engine sc v Hrpc Hv) as Hkeys.
      assert (Hhd : has_decrypt engine (rpc_after (script_body sc)) = _)
        by (rewrite Hrpc; apply (has_decrypt_bound engine v Hv)).
      destruct (to_boolean (read_prop v exports)).
      * pose proof (call_not_ret (Object_keys sc) (read_prop v exports))
          as Hnr.
        destruct (call_ (Object_keys sc) (ret (read_prop v exports)))
          as [msgs [keys|e|]].
        -- now rewrite (check_reports engine sc Hse _ _ _ Hhd Hkeys).
        -- destruct (Hstring e) as [text Htext].
           now rewrite (check_catches_second engine sc Hse Herr _ _ _ _
                          Hhd Hkeys Htext).
        -- now destruct Hnr.
      * now rewrite (check_reports engine sc Hse _ _ _ Hhd Hkeys).
Qed.

(** C7, as stated, fails: after [var String = null; var rpc = null;] the
    inspection throws a TypeError, the inner [catch] calls [String], which is
    not a function any more, and that second TypeError leaves the check. *)
Lemma check_exports_can_throw :
  snd (check_exports sample_engine (string_rebound FallsThrough))
  = Throw (JError "TypeError" "String is not a function" (JStr "at <anonymous>"))
  /\ ~ (forall engine sc e, snd (check_exports engine sc) <> Throw e).
Proof.
  split; [reflexivity|].
  intros H.
  apply (H sample_engine (string_rebound FallsThrough)
           (JError "TypeError" "String is not a function" (JStr "at <anonymous>"))).
  reflexivity.
Qed.

(** C7, amended.  Where the check still calls the runtime's [send] and the
    call of [String] returns, the check never throws: it completes normally
    and sends exactly one message of its own, after whatever the call of
    [Object.keys] sent.
    - [rpc] does not resolve, or is [null]: the message is
      [{stage:"exports", error}] with the text of the engine's
      ReferenceError or TypeError.
    - [rpc] is [undefined]: [{stage:"exports", hasDecrypt:false,
      exportKeys:null}].
    - [rpc.exports] is falsy: [hasDecrypt] is that value, [exportKeys] is
      [null].
    - [rpc.exports] is truthy and [Object.keys] returns: [hasDecrypt] tells
      whether [rpc.exports.decrypt] is a function, [exportKeys] is what
      [Object.keys] returned.
    - [rpc.exports] is truthy and [Object.keys] throws: the message is
      [{stage:"exports", error}] with the text of what it threw. *)
Theorem check_exports_never_throws engine sc :
  send_exports sc = TheSend ->
  send_error sc = TheSend ->
  (forall e, exists text, call_ (String_error sc) (ret e) = ([], Val text)) ->
  snd (check_exports engine sc) = Val tt
  /\ (forall text,
        rpc_after (script_body sc) = Unresolvable ->
        call_ (String_error sc) (ret (reference_error engine "rpc"))
        = ([], Val text) ->
        fst (check_exports engine sc) =
          [Sent Wrapper (JObject [("stage", JStr "exports"); ("error", text)])])
  /\ (forall text,
        rpc_after (script_body sc) = Bound JNull ->
        call_ (String_error sc) (ret (type_error engine JNull))
        = ([], Val text) ->
        fst (check_exports engine sc) =
          [Sent Wrapper (JObject [("stage", JStr "exports"); ("error", text)])])
  /\ (rpc_after (script_body sc) = Bound JUndefined ->
      fst (check_exports engine sc) =
        [Sent Wrapper
           (JObject [("stage", JStr "exports"); ("hasDecrypt", JBool false);
                     ("exportKeys", JNull)])])
  /\ (forall v,
        rpc_after (script_body sc) = Bound v ->
        nullish v = false ->
        to_boolean (read_prop v exports) = false ->
        fst (check_exports engine sc) =
          [Sent Wrapper
             (JObject [("stage", JStr "exports");
                       ("hasDecrypt", read_prop v exports);
                       ("exportKeys", JNull)])])
  /\ (forall v msgs keys,
        rpc_after (script_body sc) = Bound v ->
        nullish v = false ->
        to_boolean (read_prop v exports) = true ->
        call_ (Object_keys sc) (ret (read_prop v exports)) = (msgs, Val keys) ->
        fst (check_exports engine sc) =
          msgs ++
          [Sent Wrapper
             (JObject [("stage", JStr "exports");
                       ("hasDecrypt",
                        JBool (typeof (read_prop (read_prop v exports) decrypt)
                               =? "function")%string);
                       ("exportKeys", keys)])])
  /\ (forall v msgs e text,
        rpc_after (script_body sc) = Bound v ->
        nullish v = false ->
        to_boolean (read_prop v exports) = true ->
        call_ (Object_keys sc) (ret (read_prop v exports)) = (msgs, Throw e) ->
        call_ (String_error sc) (ret e) = ([], Val text) ->
        fst (check_exports engine sc) =
          msgs ++
          [Sent Wrapper (JObject [("stage", JStr "exports"); ("error", text)])]).
Proof.
  intros Hse Herr Hstring.
  split; [|split; [|split; [|split; [|split; [|split]]]]].
  - apply (check_exports_completes engine sc Hse Herr Hstring).
  - intros text Hrpc Htext.
    rewrite (check_catches_second engine sc Hse Herr _ _ _ _
               ltac:(rewrite Hrpc; apply has_decrypt_unresolvable)
               (export_keys_unresolvable engine sc Hrpc) Htext).
    reflexivity.
  - intros text Hrpc Htext.
    rewrite (check_catches_first engine sc Herr _ _
               ltac:(rewrite Hrpc; apply has_decrypt_null) Htext).
    reflexivity.
  - intros Hrpc.
    rewrite (check_reports engine sc Hse _ _ _
               ltac:(rewrite Hrpc; apply has_decrypt_undefined)
               (export_keys_undefined engine sc Hrpc)).
    reflexivity.
  - intros v Hrpc Hv Hex.
    pose proof (export_keys_bound engine sc v Hrpc Hv) as Hkeys.
    assert (Hhd : has_decrypt engine (rpc_after (script_body sc)) = _)
      by (rewrite Hrpc; apply (has_decrypt_bound engine v Hv)).
    rewrite Hex in Hkeys, Hhd.
    now rewrite (check_reports engine sc Hse _ _ _ Hhd Hkeys).
  - intros v msgs keys Hrpc Hv Hex Hcall.
    pose proof (export_keys_bound engine sc v Hrpc Hv) as Hkeys.
    assert (Hhd : has_decrypt engine (rpc_after (script_body sc)) = _)
      by (rewrite Hrpc; apply (has_decrypt_bound engine v Hv)).
    rewrite Hex in Hkeys, Hhd. rewrite Hcall in Hkeys.
    now rewrite (check_reports engine sc Hse _ _ _ Hhd Hkeys).
  - intros v msgs e text Hrpc Hv Hex Hcall Htext.
    pose proof (export_keys_bound engine sc v Hrpc Hv) as Hkeys.
    assert (Hhd : has_decrypt engine (rpc_after (script_body sc)) = _)
      by (rewrite Hrpc; apply (has_decrypt_bound engine v Hv)).
    rewrite Hex in Hkeys, Hhd. rewrite Hcall in Hkeys.
    now rewrite (check_catches_second engine sc Hse Herr _ _ _ _
                   Hhd Hkeys Htext).
Qed.

(** The witness: a registered [decrypt] is reported, and the TypeError of a
    [null] [rpc] is caught and sent. *)
Lemma check_exports_never_throws_witness :
  check_exports sample_engine registering_script =
    ([Sent Wrapper
        (JObject [("stage", JStr "exports"); ("hasDecrypt", JBool true);
                  ("exportKeys", JArray [JStr "decrypt"])])],
     Val tt)
  /\ check_exports sample_engine rpc_shadowed =
       ([Sent Wrapper
           (JObject [("stage", JStr "exports");
                     ("error",
                      JStr "TypeError: cannot read properties of null")])],
        Val tt).
Proof.
  split.
  - destruct (check_exports_never_throws sample_engine registering_script
                eq_refl eq_refl
                (fun e => ex_intro _ (JStr "") eq_refl))
      as (Hval & _ & _ & _ & _ & Hkeys & _).
    specialize (Hkeys _ [] (JArray [JStr "decrypt"])
                  eq_refl eq_refl eq_refl eq_refl).
    rewrite (surjective_pairing (check_exports sample_engine registering_script)).
    rewrite Hval, Hkeys. reflexivity.
  - destruct (check_exports_never_throws sample_engine rpc_shadowed
                eq_refl eq_refl
                (fun e => ex_intro _
                   (JStr "TypeError: cannot read properties of null") eq_refl))
      as (Hval & _ & Hnull & _).
    specialize (Hnull _ eq_refl eq_refl).
    rewrite (surjective_pairing (check_exports sample_engine rpc_shadowed)).
    rewrite Hval, Hnull. reflexivity.
Defined.

(** ** The wrapper *)



Lemma wrapper_checked engine time sc t :
  send_boot sc = TheSend ->
  body_ending (script_body sc) = FallsThrough ->
  send_finished sc = TheSend ->
  check_exports engine sc = (t, Val tt) ->
  wrapper engine time sc =
    (Sent Wrapper
       (JObject [("stage", JStr "boot"); ("time", JStr time);
                 ("msg", JStr "js wrapper entered")])
     :: map (Sent Body) (body_sends (script_body sc))
     ++ Sent Wrapper
          (JObject [("stage", JStr "boot");
                    ("msg", JStr "js wrapper finished (top-level ok)")])
        :: t,
     Val tt).
Proof.
  intros Hboot Hend Hfin Hcheck. unfold wrapper, run_body.
  rewrite Hboot, Hend, Hfin, Hcheck. reflexivity.
Qed.




Lemma wrapper_throwing engine time sc e error stack_text :
  send_boot sc = TheSend ->
  body_ending (script_body sc) = Throws e ->
  send_fatal sc = TheSend ->
  call_ (String_fatal sc) (ret e) = ([], Val error) ->
  (if to_boolean e && to_boolean (read_prop e stack)
   then call_ (String_stack sc) (ret (read_prop e stack)) = ([], Val stack_text)
   else stack_text = JNull) ->
  wrapper engine time sc =
    (Sent Wrapper
       (JObject [("stage", JStr "boot"); ("time", JStr time);
                 ("msg", JStr "js wrapper entered")])
     :: map (Sent Body) (body_sends (script_body sc))
     ++ [Sent Wrapper
           (JObject [("stage", JStr "fatal"); ("error", error);
                     ("stack", stack_text)])],
     Throw e).
Proof.
  intros Hboot Hend Hfatal Herror Hstack.
  unfold wrapper, run_body. rewrite Hboot, Hend, Hfatal. cbn.
  rewrite Herror. unfold and_. cbn [bind ret app].
  destruct (to_boolean e) eqn:He; cbn [andb] in Hstack.
  - rewrite (JSFacts.get_prop_truthy engine e stack He). cbn [bind ret app].
    destruct (to_boolean (read_prop e stack)).
    + rewrite Hstack. reflexivity.
    + subst stack_text. reflexivity.
  - cbn [bind ret app]. rewrite He. subst stack_text. reflexivity.
Qed.




(** X11.  Where the body has left [send] and [String] callable (every
    [send] of the wrapper is the runtime's and every call of [String]
    returns), the wrapper throws exactly when the body throws, and then the
    very value the body threw; in every other case it completes normally,
    whatever [rpc] is and whatever [Object.keys] does. *)
Theorem wrapper_completion engine time sc :
  send_boot sc = TheSend ->
  send_finished sc = TheSend ->
  send_exports sc = TheSend ->
  send_error sc = TheSend ->
  send_fatal sc = TheSend ->
  (forall e, exists text, call_ (String_error sc) (ret e) = ([], Val text)) ->
  (forall e, exists text, call_ (String_fatal sc) (ret e) = ([], Val text)) ->
  (forall v, exists text, call_ (String_stack sc) (ret v) = ([], Val text)) ->
  (forall e,
     snd (wrapper engine time sc) = Throw e
     <-> body_ending (script_body sc) = Throws e)
  /\ ((forall e, body_ending (script_body sc) <> Throws e) ->
      snd (wrapper engine time sc) = Val tt).
Proof.
  intros Hboot Hfin Hse Herr Hfatal Hs1 Hs2 Hs3.
  assert (Hrun :
            snd (wrapper engine time sc) =
              match body_ending (script_body sc) with
              | Throws e => Throw e
              | _ => Val tt
              end).
  { destruct (body_ending (script_body sc)) as [|e|] eqn:Hend.
    - pose proof (check_exports_completes engine sc Hse Herr Hs1) as Hval.
      rewrite (wrapper_checked engine time sc
                 (fst (check_exports engine sc)) Hboot Hend Hfin);
        [reflexivity|].
      rewrite <- Hval. now destruct (check_exports engine sc).
    - destruct (Hs2 e) as [error Herror].
      destruct (to_boolean e && to_boolean (read_prop e stack)) eqn:Hst.
      + destruct (Hs3 (read_prop e stack)) as [text Htext].
        rewrite (wrapper_throwing engine time sc e error text
                   Hboot Hend Hfatal Herror);
          [reflexivity | now rewrite Hst].
      + rewrite (wrapper_throwing engine time sc e error JNull
                   Hboot Hend Hfatal Herror);
          [reflexivity | now rewrite Hst].
    - unfold wrapper, run_body. rewrite Hboot, Hend. reflexivity. }
  rewrite Hrun. split.
  - intros e. destruct (body_ending (script_body sc)) as [|e'|];
      split; try discriminate; intros [=]; now subst.
  - intros Hno. destruct (body_ending (script_body sc)) as [|e'|];
      try reflexivity. now destruct (Hno e').
Qed.

(** The witness: the body that throws [Error: no module] makes the wrapper
    throw that Error, and the body that registers [decrypt] lets it complete
    normally. *)
Lemma wrapper_completion_witness :
  snd (wrapper sample_engine "2024-05-01T12:00:00" throwing_script)
  = Throw (JError "Error" "no module" (JStr "at <anonymous>"))
  /\ snd (wrapper sample_engine "2024-05-01T12:00:00" registering_script)
     = Val tt.
Proof.
  split.
  - destruct (wrapper_completion sample_engine "2024-05-01T12:00:00"
                throwing_script eq_refl eq_refl eq_refl eq_refl eq_refl
                (fun e => ex_intro _ (JStr "Error: no module") eq_refl)
                (fun e => ex_intro _ (JStr "Error: no module") eq_refl)
                (fun v => ex_intro _ (JStr "at <anonymous>") eq_refl))
      as [H _].
    destruct (H (JError "Error" "no module" (JStr "at <anonymous>")))
      as [_ H'].
    exact (H' eq_refl).
  - destruct (wrapper_completion sample_engine "2024-05-01T12:00:00"
                registering_script eq_refl eq_refl eq_refl eq_refl eq_refl
                (fun e => ex_intro _ (JStr "") eq_refl)
                (fun e => ex_intro _ (JStr "") eq_refl)
                (fun v => ex_intro _ (JStr "") eq_refl))
      as [_ H].
    apply H. intros e. discriminate.
Defined.

(** X12.  A body that leaves through a top-level [return] (legal inside
    the wrapper's function) ends the wrapper at once: where the first line
    still calls the runtime's [send], "boot" and the body's own messages are
    all that goes out, and the wrapper completes normally, with no
    "finished", ["exports"] or "fatal" message. *)
Theorem wrapper_body_returns engine time sc :
  send_boot sc = TheSend ->
  body_ending (script_body sc) = Returns ->
  wrapper engine time sc =
    (Sent Wrapper
       (JObject [("stage", JStr "boot"); ("time", JStr time);
                 ("msg", JStr "js wrapper entered")])
     :: map (Sent Body) (body_sends (script_body sc)),
     Val tt).
Proof.
  intros Hboot Hend. unfold wrapper, run_body. rewrite Hboot, Hend.
  reflexivity.
Qed.

Lemma wrapper_body_returns_witness :
  wrapper sample_engine "2024-05-01T12:00:00"
    (undisturbed {| body_sends := [JStr "leaving"]; body_ending := Returns;
                    rpc_after := Bound (JObject []) |}
       (returning (JStr "")) (returning (JStr "")) (returning (JArray [])))
  = ([Sent Wrapper
        (JObject [("stage", JStr "boot"); ("time", JStr "2024-05-01T12:00:00");
                  ("msg", JStr "js wrapper entered")]);
      Sent Body (JStr "leaving")],
     Val tt).
Proof.
  apply (wrapper_body_returns sample_engine "2024-05-01T12:00:00"
           (undisturbed {| body_sends := [JStr "leaving"];
                           body_ending := Returns;
                           rpc_after := Bound (JObject []) |}
              (returning (JStr "")) (returning (JStr ""))
              (returning (JArray [])))
           eq_refl eq_refl).
Defined.

End ScopedFacts.
